(** * Fileshare: the upload / share-link handlers of [File/app.py]

    A shallow embedding of [FileShareApp]: the filename deduplicator
    ([_generate_unique_filename]), the storage directory, the in-memory
    share registry ([shared_links]) and the seven request handlers.

    Conventions.
    - Strings are [string]; file contents are [list byte].
    - A [datetime] is the number of microseconds it denotes, as a [Z];
      [timedelta(days=7)] is [7 * 86400 * 10^6] of them.
    - What a view reads besides its arguments and the state (the length
      of the request body, the clock, [uuid.uuid4()], the MD5 digest of the
      name and of [os.urandom(32)], whether the operating system carries
      out a write or a removal, what [os.listdir] answers) is an explicit
      input, the record [env].
    - The disk is seen through the path strings the program hands to the
      operating system: a finite map from such a path to the bytes of the
      regular file there, and the set of the paths that name a directory.
      Two spellings of one file are two keys; the statements that relate
      one path to another are about plain names inside the upload folder,
      where each file has one spelling.
    - [send_file] is given the same relative path as [file.save] and
      [os.remove]; the service is taken to run in the directory Flask
      resolves that path against. *)

From Stdlib Require Import ZArith Lia DecimalString.
From Stdlib.Strings Require Import Ascii.
From Stdlib.Strings Require String.
From stdpp Require Import base option list strings gmap fin_maps.

Local Open Scope Z_scope.

Abbreviation byte := Init.Byte.byte.

(** ** Python string primitives used by the source *)

Module Py.

(** [len(s)] *)
Definition len (s : string) : Z := Z.of_nat (String.length s).

(** [s[:i]] for [0 <= i] *)
Definition slice_to (i : Z) (s : string) : string :=
  String.substring 0 (Z.to_nat i) s.

(** [s[i:]] for [0 <= i] *)
Definition slice_from (i : Z) (s : string) : string :=
  String.substring (Z.to_nat i) (String.length s - Z.to_nat i)%nat s.

(** [s[i:i+1]]: the empty string when [i] is past the end *)
Definition slice_one (i : Z) (s : string) : string :=
  String.substring (Z.to_nat i) 1 s.

(** [s.rfind(c)] for a one-character [c]: the highest index holding [c],
    [-1] when there is none.  [i] is the index of the head of [s] and
    [found] the best index seen so far. *)
Fixpoint rfind_from (c : ascii) (s : string) (i found : Z) : Z :=
  match s with
  | EmptyString => found
  | String a rest =>
      rfind_from c rest (i + 1) (if Ascii.eqb a c then i else found)
  end.

Definition rfind (c : ascii) (s : string) : Z := rfind_from c s 0 (-1).

(** [s.startswith(c)], [s.endswith(c)] for a one-character [c] *)
Definition startswith (c : ascii) (s : string) : bool :=
  match s with
  | String a _ => Ascii.eqb a c
  | EmptyString => false
  end.

Fixpoint endswith (c : ascii) (s : string) : bool :=
  match s with
  | EmptyString => false
  | String a EmptyString => Ascii.eqb a c
  | String _ rest => endswith c rest
  end.

(** [c in s] for a one-character [c] *)
Fixpoint contains (c : ascii) (s : string) : bool :=
  match s with
  | EmptyString => false
  | String a rest => Ascii.eqb a c || contains c rest
  end.

End Py.

(** ** [os.path] (posixpath) as the source uses it *)

Module OsPath.

Definition sep : ascii := "/"%char.
Definition extsep : ascii := "."%char.

(** The [while filenameIndex < dotIndex] loop of [genericpath._splitext]:
    it skips the leading dots of the last component and answers [true] as
    soon as it meets a character that is not a dot.  [n] counts the
    iterations left, [dotIndex - filenameIndex]. *)
Fixpoint skip_leading_dots (p : string) (filenameIndex : Z) (n : nat) : bool :=
  match n with
  | O => false
  | S k =>
      if negb (String.eqb (Py.slice_one filenameIndex p) (String extsep EmptyString))
      then true
      else skip_leading_dots p (filenameIndex + 1) k
  end.

(** [os.path.splitext(p)] *)
Definition splitext (p : string) : string * string :=
  let sepIndex := Py.rfind sep p in
  let dotIndex := Py.rfind extsep p in
  if (dotIndex >? sepIndex) &&
     skip_leading_dots p (sepIndex + 1) (Z.to_nat (dotIndex - (sepIndex + 1)))
  then (Py.slice_to dotIndex p, Py.slice_from dotIndex p)
  else (p, EmptyString).

(** [os.path.join(a, b)] *)
Definition join (a b : string) : string :=
  if Py.startswith sep b then b
  else if String.eqb a EmptyString || Py.endswith sep a then a +:+ b
  else a +:+ String sep EmptyString +:+ b.

End OsPath.

(** ** The filename deduplicator *)

(** One lowercase hexadecimal digit, for [0 <= v < 16]. *)
Definition hex_char (v : Z) : ascii :=
  if v <? 10 then ascii_of_nat (48 + Z.to_nat v)
  else ascii_of_nat (87 + Z.to_nat v).

(** The [n] hexadecimal digits of [v], most significant first. *)
Fixpoint hex_digits (n : nat) (v : Z) : string :=
  match n with
  | O => EmptyString
  | S k => String (hex_char (Z.shiftr v (4 * Z.of_nat k) mod 16)) (hex_digits k v)
  end.

(** [hash_object.hexdigest()]: the 32 digits of the 128-bit MD5 digest. *)
Definition hexdigest (digest : Z) : string := hex_digits 32 (digest mod 2 ^ 128).

(** [hash_object.hexdigest()[:10]] *)
Definition unique_hash (digest : Z) : string := Py.slice_to 10 (hexdigest digest).

(** [FileShareApp._generate_unique_filename].  [digest] is the value of
    [hashlib.md5(f"{original_filename}{os.urandom(32)}".encode())]. *)
Definition _generate_unique_filename (original_filename : string) (digest : Z) : string :=
  let '(name, ext) := OsPath.splitext original_filename in
  name +:+ "_" +:+ unique_hash digest +:+ ext.

(** The value of a hexadecimal digit, and of a string of them read most
    significant digit first (Python's [int(s, 16)] on such a string). *)
Definition hex_value (c : ascii) : Z :=
  let n := Z.of_nat (nat_of_ascii c) in
  if n <? 58 then n - 48 else n - 87.

Fixpoint unhex_from (acc : Z) (s : string) : Z :=
  match s with
  | EmptyString => acc
  | String c rest => unhex_from (acc * 16 + hex_value c) rest
  end.

Definition unhex (s : string) : Z := unhex_from 0 s.

(** A stored name is safe when it is a single path component that names
    neither the directory itself nor its parent. *)
Definition safe_name (n : string) : bool :=
  negb (Py.contains OsPath.sep n) && negb (String.eqb n "")
  && negb (String.eqb n ".") && negb (String.eqb n "..").

(** The suffix takes at least [n] values: [n] digests can be chosen whose
    suffixes are pairwise distinct. *)
Definition suffix_space_at_least (n : Z) : Prop :=
  ∃ f : Z → Z, ∀ i j, 0 <= i < n → 0 <= j < n →
                      unique_hash (f i) = unique_hash (f j) → i = j.

(** ** Configuration, state, requests, responses *)

(** The two arguments of [FileShareApp.__init__].  [max_file_size] is also
    what [__init__] installs as Flask's [MAX_CONTENT_LENGTH]. *)
Record config := Config {
  upload_folder : string;
  max_file_size : Z
}.

Definition default_config : config :=
  {| upload_folder := "uploads"; max_file_size := 16 * 1024 * 1024 |}.

(** A value of the [shared_links] dictionary. *)
Record link_info := LinkInfo {
  filename : string;
  created_at : Z;
  expires_at : Z
}.

(** The mutable state the handlers share: the [shared_links] dictionary and
    the disk.  [storage] maps a path, spelled as the program hands it to the
    operating system, to the bytes of the regular file there; [directories]
    holds the paths that name a directory. *)
Record state := State {
  shared_links : gmap string link_info;
  storage : gmap string (list byte);
  directories : gset string
}.

(** The service right after [__init__] with the default folder: no link, no
    file, and the upload folder made by [os.makedirs]. *)
Definition initial_state : state :=
  {| shared_links := ∅; storage := ∅;
     directories := {[ "uploads/."; "uploads/.." ]} |}.

Module Werkzeug.
(** [request.files['file']]: the client's file name and the uploaded bytes. *)
Record FileStorage := { filename : string; stream : list byte }.
End Werkzeug.

(** The context of one request: what the view reads besides its arguments
    and the state. *)
Record env := Env {
  (** the length of the request body, [request.content_length] *)
  content_length : Z;
  (** the value of the [k]-th call of [datetime.now()] in this request *)
  datetime_now : nat -> Z;
  (** [str(uuid.uuid4())] *)
  uuid4 : string;
  (** the MD5 digest computed by the filename deduplicator *)
  md5_digest : Z;
  (** [Some msg] when the operating system refuses the write or the removal
      this request attempts, [msg] being the text of the exception; [None]
      when it carries it out *)
  os_error : option string;
  (** for a refused write: [Some k] when the file was opened and [k] bytes
      reached it before the failure, [None] when it could not be opened *)
  bytes_saved : option nat;
  (** what [os.listdir] answers for the upload folder, each name with the
      [os.path.getsize] of its entry *)
  listdir : list (string * Z)
}.

(** [timedelta(days=7)] *)
Definition timedelta_days_7 : Z := 7 * 86400 * 1000000.

(** The routes of [setup_routes], with what Flask hands to the view.
    [ReqUpload None] is a request without a ['file'] part. *)
Inductive request :=
| ReqIndex
| ReqUpload (file : option Werkzeug.FileStorage)
| ReqDownload (filename : string)
| ReqDelete (filename : string)
| ReqList
| ReqShare (filename : string)
| ReqSharedDownload (share_id : string).

(** [url_for(...)] *)
Inductive url :=
| UrlListFiles
| UrlSharedDownload (share_id : string).

(** The [error] argument of the [index.html] template. *)
Inductive upload_error :=
| NoFilePart
| NoSelectedFile
| FileTooLarge (max_size : Z).

(** [render_template(...)], with the template's arguments.  [FilesPage] lists
    each name with the text of its size. *)
Inductive page :=
| IndexPage (error : option upload_error)
| FilesPage (files : list (string * string))
| SharePage (filename : string) (share_link : url) (expiration_days : Z).

(** [EntityTooLarge] is werkzeug's [RequestEntityTooLarge], raised when the
    body is longer than [MAX_CONTENT_LENGTH]. *)
Inductive response :=
| Render (p : page) (status : Z)
| Redirect (target : url)
| SendFile (path : string) (content : list byte)
| Abort (status : Z) (description : string)
| EntityTooLarge
| Unhandled (exception : string)
| ReturnedNone.

(** The HTTP status of a response; an exception that no handler catches and
    a view that returns [None] are Flask's 500. *)
Definition status_of (r : response) : Z :=
  match r with
  | Render _ status => status
  | Redirect _ => 302
  | SendFile _ _ => 200
  | Abort status _ => status
  | EntityTooLarge => 413
  | Unhandled _ => 500
  | ReturnedNone => 500
  end.

(** A [flash(message, category)] call. *)
Definition flash_msg : Type := string * string.

(** What a view leaves behind: its response, the messages it flashed, and
    the state after it. *)
Record outcome := Outcome {
  resp : response;
  flashed : list flash_msg;
  after : state
}.

(** ** The storage directory *)

Module Os.

(** [os.path.exists(path)]: true of a regular file and of a directory *)
Definition exists_ (path : string) (st : state) : bool :=
  bool_decide (is_Some (storage st !! path))
  || bool_decide (path ∈ directories st).

(** [os.remove(path)] carried out by the operating system: nothing is left
    at [path].  (For a directory the operating system never carries it out:
    it refuses, and [delete_file] takes its [os_error] branch.) *)
Definition remove (path : string) (st : state) : state :=
  {| shared_links := shared_links st;
     storage := delete path (storage st);
     directories := directories st ∖ {[ path ]} |}.

(** [file.save(path)] carried out: [path] holds [content] *)
Definition save (path : string) (content : list byte) (st : state) : state :=
  {| shared_links := shared_links st;
     storage := <[path := content]> (storage st);
     directories := directories st |}.

End Os.

Module Flask.

(** What [send_file(path, as_attachment=True)] does: it sends the bytes of a
    regular file, raises [FileNotFoundError] when nothing is at [path], and
    raises [IsADirectoryError] on a directory. *)
Inductive sent :=
| Sent (content : list byte)
| FileNotFoundError
| IsADirectoryError.

Definition send_file (path : string) (st : state) : sent :=
  match storage st !! path with
  | Some content => Sent content
  | None =>
      if bool_decide (path ∈ directories st) then IsADirectoryError
      else FileNotFoundError
  end.

End Flask.

(** ** The text of a size *)

Module PyFloat.

(** The quotient [a / b], for [0 <= a] and [0 < b], rounded to the nearest
    integer, ties to the even one. *)
Definition round_half_even (a b : Z) : Z :=
  let q := a / b in
  let r := a mod b in
  if 2 * r <? b then q
  else if b <? 2 * r then q + 1
  else if Z.even q then q else q + 1.

(** The double nearest to the integer [n].  Python's [n / 1024] is it
    divided by [2^10], which is exact. *)
Definition nearest_float (n : Z) : Z :=
  if n <? 2 ^ 53 then n
  else let k := Z.log2 n - 52 in round_half_even n (2 ^ k) * 2 ^ k.

(** The decimal digits of [z], for [0 <= z]. *)
Definition decimal (z : Z) : string :=
  NilZero.string_of_uint (N.to_uint (Z.to_N z)).

(** [f"{size / 1024:.2f} KB"] *)
Definition size_kb_text (size : Z) : string :=
  let hundredths := round_half_even (nearest_float size * 100) 1024 in
  decimal (hundredths / 100) +:+ "."
  +:+ decimal (hundredths mod 100 / 10) +:+ decimal (hundredths mod 10)
  +:+ " KB".

End PyFloat.

(** ** The share registry *)

Definition registry_insert (share_id : string) (info : link_info) (st : state) : state :=
  {| shared_links := <[share_id := info]> (shared_links st);
     storage := storage st;
     directories := directories st |}.

Definition registry_delete (share_id : string) (st : state) : state :=
  {| shared_links := delete share_id (shared_links st);
     storage := storage st;
     directories := directories st |}.

(** ** The views *)

Section Views.

Variable cfg : config.
Variable e : env.

(** [FileShareApp.index] *)
Definition index (st : state) : outcome :=
  Outcome (Render (IndexPage None) 200) [] st.

(** [FileShareApp.upload].  The first thing the view does is touch
    [request.files], and there Flask refuses a body longer than
    [MAX_CONTENT_LENGTH], which [__init__] set to [max_file_size].  When
    [file.save] fails the exception is not caught; the file it was writing
    stays as far as it got. *)
Definition upload (files : option Werkzeug.FileStorage) (st : state) : outcome :=
  if content_length e >? max_file_size cfg then Outcome EntityTooLarge [] st
  else
    match files with
    | None => Outcome (Render (IndexPage (Some NoFilePart)) 400) [] st
    | Some file =>
        if String.eqb (Werkzeug.filename file) ""
        then Outcome (Render (IndexPage (Some NoSelectedFile)) 400) [] st
        else if negb (String.eqb (Werkzeug.filename file) "") then
          let file_size := Z.of_nat (length (Werkzeug.stream file)) in
          if file_size >? max_file_size cfg
          then Outcome (Render (IndexPage (Some (FileTooLarge (max_file_size cfg)))) 400)
                       [] st
          else
            let filename :=
              _generate_unique_filename (Werkzeug.filename file) (md5_digest e) in
            let filepath := OsPath.join (upload_folder cfg) filename in
            match os_error e with
            | Some exn =>
                Outcome (Unhandled exn) []
                        match bytes_saved e with
                        | Some k => Os.save filepath (take k (Werkzeug.stream file)) st
                        | None => st
                        end
            | None =>
                Outcome (Redirect UrlListFiles)
                        [("File " +:+ filename +:+ " uploaded successfully!", "success")]
                        (Os.save filepath (Werkzeug.stream file) st)
            end
        else Outcome ReturnedNone [] st
    end.

(** [FileShareApp.download]: only [FileNotFoundError] is caught. *)
Definition download (filename : string) (st : state) : outcome :=
  let path := OsPath.join (upload_folder cfg) filename in
  match Flask.send_file path st with
  | Flask.Sent content => Outcome (SendFile path content) [] st
  | Flask.FileNotFoundError =>
      Outcome (Redirect UrlListFiles) [("File not found", "error")] st
  | Flask.IsADirectoryError => Outcome (Unhandled "IsADirectoryError") [] st
  end.

(** [FileShareApp.delete_file] *)
Definition delete_file (filename : string) (st : state) : outcome :=
  let filepath := OsPath.join (upload_folder cfg) filename in
  if negb (Os.exists_ filepath st)
  then Outcome (Redirect UrlListFiles) [("File not found", "error")] st
  else
    match os_error e with
    | None =>
        Outcome (Redirect UrlListFiles)
                [("File " +:+ filename +:+ " deleted successfully!", "success")]
                (Os.remove filepath st)
    | Some exn =>
        Outcome (Redirect UrlListFiles)
                [("Error deleting file: " +:+ exn, "error")] st
    end.

(** [FileShareApp.share_file] *)
Definition share_file (filename : string) (st : state) : outcome :=
  let filepath := OsPath.join (upload_folder cfg) filename in
  if negb (Os.exists_ filepath st)
  then Outcome (Redirect UrlListFiles) [("File not found", "error")] st
  else
    let share_id := uuid4 e in
    let info := {| filename := filename;
                   created_at := datetime_now e 0;
                   expires_at := datetime_now e 1 + timedelta_days_7 |} in
    let share_link := UrlSharedDownload share_id in
    Outcome (Render (SharePage filename share_link 7) 200) []
            (registry_insert share_id info st).

(** [FileShareApp.shared_download]: only [FileNotFoundError] is turned into
    the 404. *)
Definition shared_download (share_id : string) (st : state) : outcome :=
  match shared_links st !! share_id with
  | None => Outcome (Abort 404 "Invalid or expired sharing link") [] st
  | Some link_info =>
      if datetime_now e 0 >? expires_at link_info
      then Outcome (Abort 410 "Sharing link has expired") []
                   (registry_delete share_id st)
      else
        let filename := filename link_info in
        let filepath := OsPath.join (upload_folder cfg) filename in
        match Flask.send_file filepath st with
        | Flask.Sent content => Outcome (SendFile filepath content) [] st
        | Flask.FileNotFoundError => Outcome (Abort 404 "File not found") [] st
        | Flask.IsADirectoryError => Outcome (Unhandled "IsADirectoryError") [] st
        end
  end.

(** [FileShareApp.list_files] *)
Definition list_files (st : state) : outcome :=
  Outcome (Render (FilesPage (map (fun '(filename, file_size) =>
                                     (filename, PyFloat.size_kb_text file_size))
                                  (listdir e))) 200) [] st.

(** The dispatch of [setup_routes]. *)
Definition handle (r : request) (st : state) : outcome :=
  match r with
  | ReqIndex => index st
  | ReqUpload files => upload files st
  | ReqDownload filename => download filename st
  | ReqDelete filename => delete_file filename st
  | ReqList => list_files st
  | ReqShare filename => share_file filename st
  | ReqSharedDownload share_id => shared_download share_id st
  end.

End Views.

(** A run of the service: each request comes with its context. *)
Fixpoint run (cfg : config) (trace : list (env * request)) (st : state) : state :=
  match trace with
  | [] => st
  | (e, r) :: rest => run cfg rest (after (handle cfg e r st))
  end.

(** ** The expiry invariant of the registry *)

(** The clock of a request does not run backwards between its first two
    readings. *)
Definition clock_forward (e : env) : Prop :=
  datetime_now e 0 <= datetime_now e 1.

(** An entry expires at least seven days after it was created. *)
Definition entry_ok (info : link_info) : Prop :=
  created_at info + timedelta_days_7 <= expires_at info.

Definition registry_ok (st : state) : Prop :=
  ∀ share_id info, shared_links st !! share_id = Some info → entry_ok info.

(** ** Plain names *)

(** A non-empty name without a directory separator: what Flask's
    [<filename>] converter lets through to [download], [delete_file] and
    [share_file]. *)
Definition plain_name (n : string) : bool :=
  negb (Py.contains OsPath.sep n) && negb (String.eqb n "").

(** Every file name the request carries is plain.  For the three routes
    with a [<filename>] this is Flask's doing; for an upload it says that
    the client sent a bare name. *)
Definition plain_request (er : env * request) : Prop :=
  match er.2 with
  | ReqUpload (Some file) => plain_name (Werkzeug.filename file) = true
  | ReqDownload n | ReqDelete n | ReqShare n => plain_name n = true
  | _ => True
  end.

(** Nothing in the request resolves [share_id] or draws it again. *)
Definition leaves_token (share_id : string) (er : env * request) : Prop :=
  er.2 ≠ ReqSharedDownload share_id
  ∧ ∀ fname, er.2 = ReqShare fname → uuid4 er.1 ≠ share_id.

(** The request neither deletes the file named [n] nor uploads one that is
    stored under that name. *)
Definition leaves_name (n : string) (er : env * request) : Prop :=
  er.2 ≠ ReqDelete n
  ∧ ∀ file, er.2 = ReqUpload (Some file) →
            _generate_unique_filename (Werkzeug.filename file) (md5_digest er.1) ≠ n.

(** ** Sample inputs *)

(** The context of a small request whose clock reads [t0] and then [t1]. *)
Definition sample_env (t0 t1 : Z) (share_id : string) : env :=
  {| content_length := 1024;
     datetime_now := fun k => match k with O => t0 | S _ => t1 end;
     uuid4 := share_id;
     md5_digest := 0;
     os_error := None;
     bytes_saved := None;
     listdir := [] |}.

(** A storage directory holding [uploads/a.txt], and a registry holding one
    link to it, created at [0]. *)
Definition sample_state : state :=
  {| shared_links :=
       {[ "tok" := {| filename := "a.txt"; created_at := 0;
                      expires_at := timedelta_days_7 |} ]};
     storage := {[ "uploads/a.txt" := [Init.Byte.x68; Init.Byte.x69] ]};
     directories := {[ "uploads/."; "uploads/.." ]} |}.

(** An upload of [report.pdf] followed by a share request for the stored
    name, the clock advancing by one microsecond inside the second request. *)
Definition sample_trace : list (env * request) :=
  [ (sample_env 0 0 "u",
     ReqUpload (Some {| Werkzeug.filename := "report.pdf";
                        Werkzeug.stream := [Init.Byte.x25; Init.Byte.x50] |}));
    (sample_env 5 6 "9f1c", ReqShare "report_0000000000.pdf") ].

(** A named two-byte file, as [request.files['file']] delivers it. *)
Definition sample_file (name : string) : Werkzeug.FileStorage :=
  {| Werkzeug.filename := name;
     Werkzeug.stream := [Init.Byte.x25; Init.Byte.x50] |}.

(** The context of a small request whose deduplicator digest is [digest]. *)
Definition sample_env_digest (digest : Z) : env :=
  {| content_length := 1024;
     datetime_now := fun _ => 0;
     uuid4 := "u";
     md5_digest := digest;
     os_error := None;
     bytes_saved := None;
     listdir := [] |}.

(** The context of an upload whose body is [body] bytes long. *)
Definition sample_env_body (body : Z) : env :=
  {| content_length := body;
     datetime_now := fun _ => 0;
     uuid4 := "u";
     md5_digest := 0;
     os_error := None;
     bytes_saved := None;
     listdir := [] |}.

(** A configuration with a small maximum. *)
Definition small_config (max_size : Z) : config :=
  {| upload_folder := "uploads"; max_file_size := max_size |}.

(** * Properties *)

Example splitext_report : OsPath.splitext "report.pdf" = ("report", ".pdf").
Proof. reflexivity. Qed.

Example splitext_hidden : OsPath.splitext ".bashrc" = (".bashrc", "").
Proof. reflexivity. Qed.

Example splitext_dir_dot : OsPath.splitext "a.b/c" = ("a.b/c", "").
Proof. reflexivity. Qed.

Example splitext_two : OsPath.splitext "x/..a.tar.gz" = ("x/..a.tar", ".gz").
Proof. reflexivity. Qed.

Example unique_name_report :
  _generate_unique_filename "report.pdf" 0x0123456789abcdef0123456789abcdef
  = "report_0123456789.pdf".
Proof. reflexivity. Qed.

Example join_plain : OsPath.join "uploads" "a.txt" = "uploads/a.txt".
Proof. reflexivity. Qed.

Example join_absolute : OsPath.join "uploads" "/etc/x" = "/etc/x".
Proof. reflexivity. Qed.

(** ** The share registry on access *)

Section SharedDownload.

Variable cfg : config.

Lemma shared_download_absent e share_id st :
  shared_links st !! share_id = None →
  shared_download cfg e share_id st
  = Outcome (Abort 404 "Invalid or expired sharing link") [] st.
Proof. intros H. unfold shared_download. by rewrite H. Qed.

Lemma shared_download_late e share_id info st :
  shared_links st !! share_id = Some info →
  datetime_now e 0 > expires_at info →
  shared_download cfg e share_id st
  = Outcome (Abort 410 "Sharing link has expired") [] (registry_delete share_id st).
Proof.
  intros H Hlate. unfold shared_download. rewrite H.
  destruct (Z.gtb_spec (datetime_now e 0) (expires_at info)); [done | lia].
Qed.

Lemma shared_download_live e share_id info st :
  shared_links st !! share_id = Some info →
  datetime_now e 0 <= expires_at info →
  shared_download cfg e share_id st
  = let filepath := OsPath.join (upload_folder cfg) (filename info) in
    match Flask.send_file filepath st with
    | Flask.Sent content => Outcome (SendFile filepath content) [] st
    | Flask.FileNotFoundError => Outcome (Abort 404 "File not found") [] st
    | Flask.IsADirectoryError => Outcome (Unhandled "IsADirectoryError") [] st
    end.
Proof.
  intros H Hlive. unfold shared_download. rewrite H.
  destruct (Z.gtb_spec (datetime_now e 0) (expires_at info)); [lia | done].
Qed.

Lemma send_file_file path content st :
  storage st !! path = Some content → Flask.send_file path st = Flask.Sent content.
Proof. intros H. unfold Flask.send_file. by rewrite H. Qed.

Lemma send_file_nothing path st :
  storage st !! path = None → path ∉ directories st →
  Flask.send_file path st = Flask.FileNotFoundError.
Proof.
  intros H Hdir. unfold Flask.send_file. rewrite H.
  by rewrite bool_decide_eq_false_2.
Qed.

(** The registry of [shared_download] never looks at the disk. *)
Lemma shared_download_after e share_id st :
  after (shared_download cfg e share_id st) = st
  ∨ after (shared_download cfg e share_id st) = registry_delete share_id st
    ∧ ∃ info, shared_links st !! share_id = Some info
              ∧ datetime_now e 0 > expires_at info.
Proof.
  unfold shared_download.
  destruct (shared_links st !! share_id) as [info|] eqn:H; [| by left].
  destruct (Z.gtb_spec (datetime_now e 0) (expires_at info)).
  - right. split; [done |]. exists info. split; [done | lia].
  - left. by destruct (Flask.send_file _ st).
Qed.

End SharedDownload.

(** ** What each view does to the registry *)

Section RegistryFrame.

Variable cfg : config.

Lemma upload_registry e files st :
  shared_links (after (upload cfg e files st)) = shared_links st.
Proof.
  unfold upload. destruct (content_length e >? _); [done |].
  destruct files as [file|]; [| done].
  destruct (String.eqb _ _); [done |]. cbn [negb].
  destruct (_ >? _); [done |].
  destruct (os_error e); [| done]. by destruct (bytes_saved e).
Qed.

Lemma download_state fname st : after (download cfg fname st) = st.
Proof. unfold download. by destruct (Flask.send_file _ st). Qed.

Lemma delete_file_registry e fname st :
  shared_links (after (delete_file cfg e fname st)) = shared_links st.
Proof.
  unfold delete_file. destruct (negb _); [done |]. by destruct (os_error e).
Qed.

Lemma share_file_registry e fname st :
  shared_links (after (share_file cfg e fname st)) = shared_links st
  ∨ shared_links (after (share_file cfg e fname st))
    = <[uuid4 e := {| filename := fname;
                      created_at := datetime_now e 0;
                      expires_at := datetime_now e 1 + timedelta_days_7 |}]>
        (shared_links st).
Proof. unfold share_file. destruct (negb _); [by left | by right]. Qed.

(** A token leaves the registry only through [shared_download] of that
    very token, past its expiry. *)
Lemma eviction_only_on_access e r st share_id info :
  shared_links st !! share_id = Some info →
  shared_links (after (handle cfg e r st)) !! share_id = None →
  r = ReqSharedDownload share_id ∧ datetime_now e 0 > expires_at info.
Proof.
  intros Hin Hout. destruct r as [|files|f|f|  |f|sid]; cbn [handle] in Hout.
  - cbn in Hout. congruence.
  - rewrite upload_registry in Hout. congruence.
  - rewrite download_state in Hout. congruence.
  - rewrite delete_file_registry in Hout. congruence.
  - cbn in Hout. congruence.
  - destruct (share_file_registry e f st) as [Heq | Heq]; rewrite Heq in Hout.
    + congruence.
    + destruct (decide (uuid4 e = share_id)) as [Hsame | Hne].
      * rewrite Hsame, lookup_insert_eq in Hout. congruence.
      * rewrite lookup_insert_ne in Hout by done. congruence.
  - destruct (shared_download_after cfg e sid st) as [Heq | [Heq (i & Hi & Hlate)]];
      rewrite Heq in Hout; [congruence |].
    cbn in Hout. destruct (decide (sid = share_id)) as [-> | Hne].
    + split; [done |]. congruence.
    + rewrite lookup_delete_ne in Hout by done. congruence.
Qed.

End RegistryFrame.

(** C5. A token that is not in the share registry (never issued, or evicted
    earlier) makes [shared_download] abort with 404, and neither the
    registry nor the storage directory changes. *)
Theorem shared_download_unknown_token cfg e share_id st :
  shared_links st !! share_id = None →
  resp (shared_download cfg e share_id st) = Abort 404 "Invalid or expired sharing link"
  ∧ status_of (resp (shared_download cfg e share_id st)) = 404
  ∧ after (shared_download cfg e share_id st) = st.
Proof. intros H. by rewrite shared_download_absent. Qed.

Lemma shared_download_unknown_token_witness :
  shared_links sample_state !! "never-issued" = None
  ∧ resp (shared_download default_config (sample_env 5 5 "u") "never-issued" sample_state)
    = Abort 404 "Invalid or expired sharing link"
  ∧ status_of (resp (shared_download default_config (sample_env 5 5 "u")
                       "never-issued" sample_state)) = 404
  ∧ after (shared_download default_config (sample_env 5 5 "u") "never-issued" sample_state)
    = sample_state.
Proof.
  split; [reflexivity |].
  apply (shared_download_unknown_token default_config (sample_env 5 5 "u")
           "never-issued" sample_state).
  reflexivity.
Defined.

(** C2. When a registered token is resolved at a time strictly after its
    [expires_at], [shared_download] aborts with 410 and deletes the entry
    (the disk is untouched); any later [shared_download] of the same token
    then aborts with 404.  There is no sweep: whatever the request, an entry
    disappears only by such an access to its own token. *)
Theorem shared_download_expired cfg e share_id info st :
  shared_links st !! share_id = Some info →
  datetime_now e 0 > expires_at info →
  let o := shared_download cfg e share_id st in
  resp o = Abort 410 "Sharing link has expired"
  ∧ status_of (resp o) = 410
  ∧ shared_links (after o) = delete share_id (shared_links st)
  ∧ storage (after o) = storage st
  ∧ (∀ e', resp (shared_download cfg e' share_id (after o))
           = Abort 404 "Invalid or expired sharing link"
           ∧ after (shared_download cfg e' share_id (after o)) = after o)
  ∧ (∀ e' r st' tok i,
        shared_links st' !! tok = Some i →
        shared_links (after (handle cfg e' r st')) !! tok = None →
        r = ReqSharedDownload tok ∧ datetime_now e' 0 > expires_at i).
Proof.
  intros Hin Hlate o. subst o. rewrite (shared_download_late _ _ _ _ _ Hin Hlate).
  cbn [resp after status_of registry_delete shared_links storage].
  repeat split; try done.
  - rewrite shared_download_absent; [done |]. cbn. apply lookup_delete_eq.
  - rewrite shared_download_absent; [done |]. cbn. apply lookup_delete_eq.
  - eapply eviction_only_on_access; eassumption.
  - eapply eviction_only_on_access; eassumption.
Qed.

Lemma shared_download_expired_witness :
  shared_links sample_state !! "tok"
  = Some {| filename := "a.txt"; created_at := 0; expires_at := timedelta_days_7 |}
  ∧ datetime_now (sample_env (timedelta_days_7 + 1) 0 "u") 0 > timedelta_days_7
  ∧ resp (shared_download default_config (sample_env (timedelta_days_7 + 1) 0 "u")
            "tok" sample_state)
    = Abort 410 "Sharing link has expired"
  ∧ shared_links (after (shared_download default_config
                           (sample_env (timedelta_days_7 + 1) 0 "u") "tok" sample_state))
    = delete "tok" (shared_links sample_state).
Proof.
  pose proof (shared_download_expired default_config
                (sample_env (timedelta_days_7 + 1) 0 "u") "tok"
                {| filename := "a.txt"; created_at := 0; expires_at := timedelta_days_7 |}
                sample_state) as H.
  assert (Hin : shared_links sample_state !! "tok"
                = Some {| filename := "a.txt"; created_at := 0;
                          expires_at := timedelta_days_7 |}) by reflexivity.
  assert (Hlate : datetime_now (sample_env (timedelta_days_7 + 1) 0 "u") 0
                  > timedelta_days_7) by (vm_compute; reflexivity).
  specialize (H Hin Hlate). cbv zeta in H.
  destruct H as (Hresp & _ & Hreg & _).
  exact (conj Hin (conj Hlate (conj Hresp Hreg))).
Defined.

(** C9. At the very instant [expires_at] the link still resolves: the stored
    file is sent and the registry keeps the entry.  The comparison is
    strict: [shared_download] answers 410 exactly when the clock reads
    strictly more than [expires_at]. *)
Theorem shared_download_at_expiry cfg e share_id info content st :
  shared_links st !! share_id = Some info →
  datetime_now e 0 = expires_at info →
  storage st !! OsPath.join (upload_folder cfg) (filename info) = Some content →
  resp (shared_download cfg e share_id st)
  = SendFile (OsPath.join (upload_folder cfg) (filename info)) content
  ∧ status_of (resp (shared_download cfg e share_id st)) = 200
  ∧ after (shared_download cfg e share_id st) = st
  ∧ (∀ e', status_of (resp (shared_download cfg e' share_id st)) = 410
           ↔ datetime_now e' 0 > expires_at info).
Proof.
  intros Hin Hnow Hfile.
  rewrite (shared_download_live cfg e share_id info st Hin) by lia.
  cbv zeta. rewrite (send_file_file _ _ _ Hfile). repeat split; try done.
  - intros H410. destruct (Z.le_gt_cases (datetime_now e' 0) (expires_at info)) as [Hle | Hgt];
      [| lia].
    rewrite (shared_download_live cfg e' share_id info st Hin Hle) in H410.
    cbv zeta in H410. rewrite (send_file_file _ _ _ Hfile) in H410. discriminate.
  - intros Hlate. by rewrite (shared_download_late cfg e' share_id info st Hin Hlate).
Qed.

Lemma shared_download_at_expiry_witness :
  shared_links sample_state !! "tok"
  = Some {| filename := "a.txt"; created_at := 0; expires_at := timedelta_days_7 |}
  ∧ datetime_now (sample_env timedelta_days_7 0 "u") 0 = timedelta_days_7
  ∧ storage sample_state !! OsPath.join (upload_folder default_config) "a.txt"
    = Some [Init.Byte.x68; Init.Byte.x69]
  ∧ resp (shared_download default_config (sample_env timedelta_days_7 0 "u")
            "tok" sample_state)
    = SendFile "uploads/a.txt" [Init.Byte.x68; Init.Byte.x69]
  ∧ after (shared_download default_config (sample_env timedelta_days_7 0 "u")
             "tok" sample_state)
    = sample_state.
Proof.
  pose proof (shared_download_at_expiry default_config
                (sample_env timedelta_days_7 0 "u") "tok"
                {| filename := "a.txt"; created_at := 0; expires_at := timedelta_days_7 |}
                [Init.Byte.x68; Init.Byte.x69] sample_state) as H.
  assert (Hin : shared_links sample_state !! "tok"
                = Some {| filename := "a.txt"; created_at := 0;
                          expires_at := timedelta_days_7 |}) by reflexivity.
  assert (Hnow : datetime_now (sample_env timedelta_days_7 0 "u") 0 = timedelta_days_7)
    by reflexivity.
  assert (Hfile : storage sample_state !! OsPath.join (upload_folder default_config) "a.txt"
                  = Some [Init.Byte.x68; Init.Byte.x69]) by reflexivity.
  destruct (H Hin Hnow Hfile) as (Hresp & _ & Hafter & _).
  exact (conj Hin (conj Hnow (conj Hfile (conj Hresp Hafter)))).
Defined.

(** ** Deleting a file *)

Lemma exists_true path st :
  Os.exists_ path st = true ↔ is_Some (storage st !! path) ∨ path ∈ directories st.
Proof.
  unfold Os.exists_. by rewrite orb_true_iff, !bool_decide_eq_true.
Qed.

Lemma exists_false path st :
  Os.exists_ path st = false ↔ storage st !! path = None ∧ path ∉ directories st.
Proof.
  unfold Os.exists_.
  by rewrite orb_false_iff, !bool_decide_eq_false, <- eq_None_not_Some.
Qed.

Lemma exists_file path st : is_Some (storage st !! path) → Os.exists_ path st = true.
Proof. intros H. apply exists_true. by left. Qed.

(** Once [delete_file] has run without an error from the operating system,
    nothing is at the path it was given. *)
Lemma delete_file_gone cfg e fname st :
  os_error e = None →
  Os.exists_ (OsPath.join (upload_folder cfg) fname) (after (delete_file cfg e fname st))
  = false.
Proof.
  intros Hok. unfold delete_file. rewrite Hok.
  destruct (Os.exists_ _ st) eqn:Hex; cbn [negb after]; [| done].
  apply exists_false. cbn. split; [apply lookup_delete_eq |].
  intros [_ Hne]%elem_of_difference. by apply Hne, elem_of_singleton.
Qed.

(** C4. [delete_file] never touches the share registry: whatever the
    outcome, [shared_links] is the same dictionary afterwards, so every token
    keeps its [filename], [created_at] and [expires_at].  When the file was
    there and its removal went through, resolving such a token up to its
    expiry finds the entry and then aborts with 404 "File not found", the
    answer of the missing file and not the one of a missing token. *)
Theorem delete_file_keeps_share_links cfg e fname st :
  shared_links (after (delete_file cfg e fname st)) = shared_links st
  ∧ (∀ share_id info e',
        Os.exists_ (OsPath.join (upload_folder cfg) fname) st = true →
        os_error e = None →
        shared_links st !! share_id = Some info →
        filename info = fname →
        datetime_now e' 0 <= expires_at info →
        let st' := after (delete_file cfg e fname st) in
        storage st' = delete (OsPath.join (upload_folder cfg) fname) (storage st)
        ∧ shared_links st' !! share_id = Some info
        ∧ resp (shared_download cfg e' share_id st') = Abort 404 "File not found"
        ∧ status_of (resp (shared_download cfg e' share_id st')) = 404
        ∧ after (shared_download cfg e' share_id st') = st').
Proof.
  split; [apply delete_file_registry |].
  intros share_id info e' Hex Hok Hin Hname Hlive st'.
  assert (Hreg : shared_links st' !! share_id = Some info).
  { subst st'. by rewrite delete_file_registry. }
  assert (Hgone : Os.exists_ (OsPath.join (upload_folder cfg) (filename info)) st' = false).
  { subst st'. rewrite Hname. by apply delete_file_gone. }
  apply exists_false in Hgone as [Hnofile Hnodir].
  rewrite (shared_download_live cfg e' share_id info st' Hreg Hlive).
  cbv zeta. rewrite (send_file_nothing _ _ Hnofile Hnodir). repeat split; try done.
  subst st'. unfold delete_file. by rewrite Hex, Hok.
Qed.

Lemma delete_file_keeps_share_links_witness :
  let e := sample_env 1 1 "u" in
  let e' := sample_env 2 2 "u" in
  let st' := after (delete_file default_config e "a.txt" sample_state) in
  Os.exists_ (OsPath.join (upload_folder default_config) "a.txt") sample_state = true
  ∧ os_error e = None
  ∧ shared_links sample_state !! "tok"
    = Some {| filename := "a.txt"; created_at := 0; expires_at := timedelta_days_7 |}
  ∧ datetime_now e' 0 <= timedelta_days_7
  ∧ shared_links st' = shared_links sample_state
  ∧ resp (shared_download default_config e' "tok" st') = Abort 404 "File not found".
Proof.
  intros e e' st'.
  destruct (delete_file_keeps_share_links default_config e "a.txt" sample_state)
    as [Hsame Hstale].
  assert (Hex : Os.exists_ (OsPath.join (upload_folder default_config) "a.txt")
                  sample_state = true) by reflexivity.
  assert (Hok : os_error e = None) by reflexivity.
  assert (Hin : shared_links sample_state !! "tok"
                = Some {| filename := "a.txt"; created_at := 0;
                          expires_at := timedelta_days_7 |}) by reflexivity.
  assert (Hlive : datetime_now e' 0 <= timedelta_days_7) by (vm_compute; discriminate).
  destruct (Hstale "tok" _ e' Hex Hok Hin eq_refl Hlive) as (_ & _ & Hresp & _).
  exact (conj Hex (conj Hok (conj Hin (conj Hlive (conj Hsame Hresp))))).
Defined.

(** ** Uploading *)

Lemma default_max_file_size : max_file_size default_config = 16 * 2 ^ 20.
Proof. reflexivity. Qed.

Lemma upload_too_long cfg e files st :
  content_length e > max_file_size cfg →
  upload cfg e files st = Outcome EntityTooLarge [] st.
Proof.
  intros Hlong. unfold upload.
  destruct (Z.gtb_spec (content_length e) (max_file_size cfg)); [done | lia].
Qed.

Lemma upload_nonempty_name cfg e file st :
  content_length e <= max_file_size cfg →
  Werkzeug.filename file ≠ "" →
  upload cfg e (Some file) st
  = if Z.of_nat (length (Werkzeug.stream file)) >? max_file_size cfg
    then Outcome (Render (IndexPage (Some (FileTooLarge (max_file_size cfg)))) 400) [] st
    else
      let filename := _generate_unique_filename (Werkzeug.filename file) (md5_digest e) in
      let filepath := OsPath.join (upload_folder cfg) filename in
      match os_error e with
      | Some exn =>
          Outcome (Unhandled exn) []
                  match bytes_saved e with
                  | Some k => Os.save filepath (take k (Werkzeug.stream file)) st
                  | None => st
                  end
      | None =>
          Outcome (Redirect UrlListFiles)
                  [("File " +:+ filename +:+ " uploaded successfully!", "success")]
                  (Os.save filepath (Werkzeug.stream file) st)
      end.
Proof.
  intros Hbody Hname. unfold upload.
  destruct (Z.gtb_spec (content_length e) (max_file_size cfg)); [lia |].
  destruct (String.eqb_spec (Werkzeug.filename file) ""); [done |]. done.
Qed.

(** An accepted upload: the body within the limit, a named file, and the
    save carried out. *)
Lemma upload_accepted cfg e file st :
  content_length e <= max_file_size cfg →
  Werkzeug.filename file ≠ "" →
  Z.of_nat (length (Werkzeug.stream file)) <= max_file_size cfg →
  os_error e = None →
  upload cfg e (Some file) st
  = Outcome (Redirect UrlListFiles)
      [("File " +:+ _generate_unique_filename (Werkzeug.filename file) (md5_digest e)
          +:+ " uploaded successfully!", "success")]
      (Os.save (OsPath.join (upload_folder cfg)
                  (_generate_unique_filename (Werkzeug.filename file) (md5_digest e)))
               (Werkzeug.stream file) st).
Proof.
  intros Hbody Hname Hsize Hok. rewrite (upload_nonempty_name cfg e file st Hbody Hname).
  destruct (Z.gtb_spec (Z.of_nat (length (Werkzeug.stream file))) (max_file_size cfg));
    [lia |].
  cbv zeta. by rewrite Hok.
Qed.

(** C6. An upload whose content is strictly larger than [max_file_size]
    (16 MiB unless configured otherwise) is refused with 413 or 400 and
    changes nothing: the storage directory and the registry are as before,
    no [file.save] has run.  The body of the request holds the file, so it
    is longer than the limit too and the refusal is Flask's 413, raised
    when the view touches [request.files]; the view's own size test, with
    its 400, would only be met by a body that were within the limit. *)
Theorem upload_too_large cfg e file st :
  Z.of_nat (length (Werkzeug.stream file)) > max_file_size cfg →
  (status_of (resp (upload cfg e (Some file) st)) = 400
   ∨ status_of (resp (upload cfg e (Some file) st)) = 413)
  ∧ after (upload cfg e (Some file) st) = st
  ∧ storage (after (upload cfg e (Some file) st)) = storage st
  ∧ (Z.of_nat (length (Werkzeug.stream file)) <= content_length e →
     resp (upload cfg e (Some file) st) = EntityTooLarge
     ∧ status_of (resp (upload cfg e (Some file) st)) = 413)
  ∧ (content_length e <= max_file_size cfg →
     Werkzeug.filename file ≠ "" →
     resp (upload cfg e (Some file) st)
     = Render (IndexPage (Some (FileTooLarge (max_file_size cfg)))) 400).
Proof.
  intros Hbig.
  assert (Hgt : (Z.of_nat (length (Werkzeug.stream file)) >? max_file_size cfg) = true).
  { destruct (Z.gtb_spec (Z.of_nat (length (Werkzeug.stream file))) (max_file_size cfg));
      [done | lia]. }
  assert (Hview : content_length e <= max_file_size cfg →
                  Werkzeug.filename file ≠ "" →
                  upload cfg e (Some file) st
                  = Outcome (Render (IndexPage (Some (FileTooLarge (max_file_size cfg)))) 400)
                      [] st).
  { intros Hbody Hname. by rewrite (upload_nonempty_name cfg e file st Hbody Hname), Hgt. }
  assert (Hflask : Z.of_nat (length (Werkzeug.stream file)) <= content_length e →
                   upload cfg e (Some file) st = Outcome EntityTooLarge [] st).
  { intros Hbody. apply upload_too_long. lia. }
  split; [| split; [| split; [| split]]].
  - destruct (Z.le_gt_cases (content_length e) (max_file_size cfg)) as [Hbody | Hbody].
    + destruct (decide (Werkzeug.filename file = "")) as [Hempty | Hname].
      * left. unfold upload.
        destruct (Z.gtb_spec (content_length e) (max_file_size cfg)); [lia |].
        by rewrite Hempty.
      * left. by rewrite Hview.
    + right. by rewrite upload_too_long by lia.
  - destruct (Z.le_gt_cases (content_length e) (max_file_size cfg)) as [Hbody | Hbody].
    + destruct (decide (Werkzeug.filename file = "")) as [Hempty | Hname].
      * unfold upload.
        destruct (Z.gtb_spec (content_length e) (max_file_size cfg)); [lia |].
        by rewrite Hempty.
      * by rewrite Hview.
    + by rewrite upload_too_long by lia.
  - destruct (Z.le_gt_cases (content_length e) (max_file_size cfg)) as [Hbody | Hbody].
    + destruct (decide (Werkzeug.filename file = "")) as [Hempty | Hname].
      * unfold upload.
        destruct (Z.gtb_spec (content_length e) (max_file_size cfg)); [lia |].
        by rewrite Hempty.
      * by rewrite Hview.
    + by rewrite upload_too_long by lia.
  - intros Hbody. by rewrite Hflask.
  - intros Hbody Hname. by rewrite Hview.
Qed.

Lemma upload_too_large_witness :
  let cfg := {| upload_folder := "uploads"; max_file_size := 1 |} in
  let file := {| Werkzeug.filename := "big.bin";
                 Werkzeug.stream := [Init.Byte.x00; Init.Byte.x01] |} in
  Z.of_nat (length (Werkzeug.stream file)) > max_file_size cfg
  ∧ Z.of_nat (length (Werkzeug.stream file)) <= content_length (sample_env 0 0 "u")
  ∧ status_of (resp (upload cfg (sample_env 0 0 "u") (Some file) sample_state)) = 413
  ∧ after (upload cfg (sample_env 0 0 "u") (Some file) sample_state) = sample_state.
Proof.
  intros cfg file.
  assert (Hbig : Z.of_nat (length (Werkzeug.stream file)) > max_file_size cfg)
    by (vm_compute; reflexivity).
  assert (Hbody : Z.of_nat (length (Werkzeug.stream file))
                  <= content_length (sample_env 0 0 "u"))
    by (vm_compute; discriminate).
  destruct (upload_too_large cfg (sample_env 0 0 "u") file sample_state Hbig)
    as (_ & Hafter & _ & Hflask & _).
  exact (conj Hbig (conj Hbody (conj (proj2 (Hflask Hbody)) Hafter))).
Defined.

(** C10, on the code.  An upload whose content is exactly [max_file_size]
    bytes long is refused: the body that carries it is longer than the
    file, hence longer than [MAX_CONTENT_LENGTH], and Flask answers 413
    before the view looks at the file; nothing is stored.  An upload is
    accepted and written, under the deduplicated name, when its whole body
    is within the limit, and its content is then strictly shorter than the
    maximum.  The view's own size test is strict (it answers "file too
    large" exactly for a content strictly above the maximum), but no body
    that holds its file ever reaches it with such a content. *)
Theorem upload_at_max_size cfg e file st :
  (Z.of_nat (length (Werkzeug.stream file)) = max_file_size cfg →
   Z.of_nat (length (Werkzeug.stream file)) < content_length e →
   resp (upload cfg e (Some file) st) = EntityTooLarge
   ∧ status_of (resp (upload cfg e (Some file) st)) = 413
   ∧ after (upload cfg e (Some file) st) = st)
  ∧ (Werkzeug.filename file ≠ "" →
     Z.of_nat (length (Werkzeug.stream file)) < content_length e →
     content_length e <= max_file_size cfg →
     os_error e = None →
     let filepath :=
       OsPath.join (upload_folder cfg)
         (_generate_unique_filename (Werkzeug.filename file) (md5_digest e)) in
     Z.of_nat (length (Werkzeug.stream file)) < max_file_size cfg
     ∧ resp (upload cfg e (Some file) st) = Redirect UrlListFiles
     ∧ storage (after (upload cfg e (Some file) st))
       = <[filepath := Werkzeug.stream file]> (storage st)
     ∧ storage (after (upload cfg e (Some file) st)) !! filepath
       = Some (Werkzeug.stream file)
     ∧ shared_links (after (upload cfg e (Some file) st)) = shared_links st)
  ∧ (∀ e' file',
        Werkzeug.filename file' ≠ "" →
        content_length e' <= max_file_size cfg →
        resp (upload cfg e' (Some file') st)
        = Render (IndexPage (Some (FileTooLarge (max_file_size cfg)))) 400
        ↔ Z.of_nat (length (Werkzeug.stream file')) > max_file_size cfg)
  ∧ (∀ e' file',
        Z.of_nat (length (Werkzeug.stream file')) < content_length e' →
        resp (upload cfg e' (Some file') st)
        ≠ Render (IndexPage (Some (FileTooLarge (max_file_size cfg)))) 400).
Proof.
  assert (Hstrict : ∀ e' file',
             Werkzeug.filename file' ≠ "" →
             content_length e' <= max_file_size cfg →
             resp (upload cfg e' (Some file') st)
             = Render (IndexPage (Some (FileTooLarge (max_file_size cfg)))) 400
             ↔ Z.of_nat (length (Werkzeug.stream file')) > max_file_size cfg).
  { intros e' file' Hname Hbody.
    rewrite (upload_nonempty_name cfg e' file' st Hbody Hname).
    destruct (Z.gtb_spec (Z.of_nat (length (Werkzeug.stream file'))) (max_file_size cfg)).
    - split; [lia | done].
    - cbv zeta. split; [| lia]. destruct (os_error e'); discriminate. }
  split; [| split; [| split]].
  - intros Hsize Hbody. by rewrite upload_too_long by lia.
  - intros Hname Hbody Hlimit Hok filepath. split; [lia |].
    rewrite (upload_accepted cfg e file st) by (done || lia).
    cbn [resp after Os.save storage shared_links].
    repeat split; try done. apply lookup_insert_eq.
  - exact Hstrict.
  - intros e' file' Hbody Hpage.
    destruct (Z.le_gt_cases (content_length e') (max_file_size cfg)) as [Hlimit | Hlimit].
    + destruct (decide (Werkzeug.filename file' = "")) as [Hempty | Hname].
      * unfold upload in Hpage.
        destruct (Z.gtb_spec (content_length e') (max_file_size cfg)); [lia |].
        by rewrite Hempty in Hpage.
      * apply (Hstrict e' file' Hname Hlimit) in Hpage. lia.
    + by rewrite upload_too_long in Hpage by lia.
Qed.

Lemma upload_at_max_size_witness :
  let cfg := small_config 1024 in
  let file := sample_file "report.pdf" in
  let e := sample_env 0 0 "u" in
  Werkzeug.filename file ≠ ""
  ∧ Z.of_nat (length (Werkzeug.stream file)) < content_length e
  ∧ content_length e <= max_file_size cfg
  ∧ os_error e = None
  ∧ resp (upload cfg e (Some file) initial_state) = Redirect UrlListFiles
  ∧ storage (after (upload cfg e (Some file) initial_state))
    = <[ "uploads/report_0000000000.pdf" := [Init.Byte.x25; Init.Byte.x50] ]> ∅.
Proof.
  intros cfg file e.
  assert (Hname : Werkzeug.filename file ≠ "") by discriminate.
  assert (Hbody : Z.of_nat (length (Werkzeug.stream file)) < content_length e)
    by reflexivity.
  assert (Hlimit : content_length e <= max_file_size cfg) by (vm_compute; discriminate).
  assert (Hok : os_error e = None) by reflexivity.
  destruct (upload_at_max_size cfg e file initial_state) as (_ & Haccept & _).
  destruct (Haccept Hname Hbody Hlimit Hok) as (_ & Hresp & Hdisk & _).
  exact (conj Hname (conj Hbody (conj Hlimit (conj Hok (conj Hresp Hdisk))))).
Defined.

(** C10 as stated fails on the code: with the maximum at two bytes, a
    two-byte file arrives in a body of some two hundred bytes, and the
    answer is 413 with nothing stored. *)
Lemma upload_at_max_size_refused :
  Z.of_nat (length (Werkzeug.stream (sample_file "report.pdf")))
  = max_file_size (small_config 2)
  ∧ Z.of_nat (length (Werkzeug.stream (sample_file "report.pdf")))
    < content_length (sample_env_body 200)
  ∧ resp (upload (small_config 2) (sample_env_body 200)
            (Some (sample_file "report.pdf")) initial_state) = EntityTooLarge
  ∧ status_of (resp (upload (small_config 2) (sample_env_body 200)
                       (Some (sample_file "report.pdf")) initial_state)) = 413
  ∧ storage (after (upload (small_config 2) (sample_env_body 200)
                      (Some (sample_file "report.pdf")) initial_state)) = ∅.
Proof. repeat split. Qed.

(** ** Creating a share link *)

Lemma share_file_missing cfg e fname st :
  Os.exists_ (OsPath.join (upload_folder cfg) fname) st = false →
  share_file cfg e fname st
  = Outcome (Redirect UrlListFiles) [("File not found", "error")] st.
Proof. intros Hnone. unfold share_file. by rewrite Hnone. Qed.

Lemma share_file_exists cfg e fname st :
  Os.exists_ (OsPath.join (upload_folder cfg) fname) st = true →
  share_file cfg e fname st
  = Outcome (Render (SharePage fname (UrlSharedDownload (uuid4 e)) 7) 200) []
      (registry_insert (uuid4 e)
         {| filename := fname;
            created_at := datetime_now e 0;
            expires_at := datetime_now e 1 + timedelta_days_7 |} st).
Proof. intros Hsome. unfold share_file. by rewrite Hsome. Qed.

Lemma share_file_present cfg e fname st :
  is_Some (storage st !! OsPath.join (upload_folder cfg) fname) →
  share_file cfg e fname st
  = Outcome (Render (SharePage fname (UrlSharedDownload (uuid4 e)) 7) 200) []
      (registry_insert (uuid4 e)
         {| filename := fname;
            created_at := datetime_now e 0;
            expires_at := datetime_now e 1 + timedelta_days_7 |} st).
Proof. intros Hsome. by apply share_file_exists, exists_file. Qed.





(** ** The expiry invariant *)

(** The three ways a request can change the registry. *)
Lemma handle_registry_cases cfg e r st :
  shared_links (after (handle cfg e r st)) = shared_links st
  ∨ (∃ share_id, r = ReqSharedDownload share_id
       ∧ shared_links (after (handle cfg e r st)) = delete share_id (shared_links st))
  ∨ (∃ fname, r = ReqShare fname
       ∧ shared_links (after (handle cfg e r st))
         = <[uuid4 e := {| filename := fname;
                           created_at := datetime_now e 0;
                           expires_at := datetime_now e 1 + timedelta_days_7 |}]>
             (shared_links st)).
Proof.
  destruct r as [|files|f|f| |f|sid]; cbn [handle].
  - by left.
  - left. apply upload_registry.
  - left. by rewrite download_state.
  - left. apply delete_file_registry.
  - by left.
  - destruct (share_file_registry cfg e f st) as [H | H]; [by left |].
    right. right. by exists f.
  - destruct (shared_download_after cfg e sid st) as [H | [H _]]; rewrite H; [by left |].
    right. left. by exists sid.
Qed.

Lemma entry_ok_later info : entry_ok info → created_at info < expires_at info.
Proof. unfold entry_ok, timedelta_days_7. lia. Qed.

Lemma handle_registry_ok cfg e r st :
  clock_forward e → registry_ok st → registry_ok (after (handle cfg e r st)).
Proof.
  intros Hclock Hok k info.
  destruct (handle_registry_cases cfg e r st)
    as [H | [(sid & _ & H) | (f & _ & H)]]; rewrite H.
  - apply Hok.
  - intros Hk. apply lookup_delete_Some in Hk as [_ Hk]. by eapply Hok.
  - intros Hk. apply lookup_insert_Some in Hk as [[_ <-] | [_ Hk]]; [| by eapply Hok].
    unfold entry_ok, clock_forward in *. cbn. lia.
Qed.

Lemma run_registry_ok cfg trace st :
  Forall (λ er, clock_forward er.1) trace →
  registry_ok st → registry_ok (run cfg trace st).
Proof.
  intros Hclocks. revert st.
  induction Hclocks as [| [e r] rest He _ IH]; intros st Hok; cbn [run]; [done |].
  apply IH. by apply handle_registry_ok.
Qed.

Lemma handle_no_mutation cfg e r st share_id info info' :
  shared_links st !! share_id = Some info →
  shared_links (after (handle cfg e r st)) !! share_id = Some info' →
  info' = info ∨ (share_id = uuid4 e ∧ ∃ fname, r = ReqShare fname).
Proof.
  intros Hbefore.
  destruct (handle_registry_cases cfg e r st)
    as [H | [(sid & _ & H) | (f & Hr & H)]]; rewrite H; intros Hafter.
  - left. congruence.
  - apply lookup_delete_Some in Hafter as [_ Hafter]. left. congruence.
  - apply lookup_insert_Some in Hafter as [[Hk _] | [_ Hafter]].
    + right. split; [done | by exists f].
    + left. congruence.
Qed.

(** C3, as the code has it.  [share_file] reads the clock twice: [created_at]
    is the first reading and [expires_at] the second one plus seven days.
    So, as long as the clock of a request does not run backwards between
    the two readings, every entry of every registry the service reaches
    expires at least seven days after its creation, in particular strictly
    later; with equal readings the distance is exactly seven days.  No
    request changes the fields of an entry that is there: an entry is kept
    as it is, removed, or replaced by [share_file] drawing its identifier
    again. *)
Theorem share_links_expiry_invariant cfg :
  (∀ e fname st,
      is_Some (storage st !! OsPath.join (upload_folder cfg) fname) →
      shared_links (after (share_file cfg e fname st)) !! uuid4 e
      = Some {| filename := fname;
                created_at := datetime_now e 0;
                expires_at := datetime_now e 1 + 7 * 86400 * 1000000 |})
  ∧ (∀ trace share_id info,
        Forall (λ er, clock_forward er.1) trace →
        shared_links (run cfg trace initial_state) !! share_id = Some info →
        created_at info + 7 * 86400 * 1000000 <= expires_at info
        ∧ created_at info < expires_at info)
  ∧ (∀ e r st share_id info info',
        shared_links st !! share_id = Some info →
        shared_links (after (handle cfg e r st)) !! share_id = Some info' →
        info' = info ∨ (share_id = uuid4 e ∧ ∃ fname, r = ReqShare fname)).
Proof.
  split; [| split].
  - intros e fname st Hsome. rewrite share_file_present by done.
    cbn. apply lookup_insert_eq.
  - intros trace share_id info Hclocks Hin.
    assert (Hok : entry_ok info).
    { eapply (run_registry_ok cfg trace initial_state Hclocks); [| exact Hin].
      intros k i Hk. cbn in Hk. by rewrite lookup_empty in Hk. }
    split; [exact Hok | by apply entry_ok_later].
  - intros e r st share_id info info'. apply handle_no_mutation.
Qed.

Lemma share_links_expiry_invariant_witness :
  Forall (λ er : env * request, clock_forward er.1) sample_trace
  ∧ shared_links (run default_config sample_trace initial_state) !! "9f1c"
    = Some {| filename := "report_0000000000.pdf"; created_at := 5;
              expires_at := 6 + 7 * 86400 * 1000000 |}
  ∧ (5 + 7 * 86400 * 1000000 <= 6 + 7 * 86400 * 1000000
     ∧ 5 < 6 + 7 * 86400 * 1000000).
Proof.
  assert (Hclocks : Forall (λ er : env * request, clock_forward er.1) sample_trace).
  { repeat constructor; vm_compute; discriminate. }
  assert (Hin : shared_links (run default_config sample_trace initial_state) !! "9f1c"
                = Some {| filename := "report_0000000000.pdf"; created_at := 5;
                          expires_at := 6 + 7 * 86400 * 1000000 |})
    by (vm_compute; reflexivity).
  destruct (share_links_expiry_invariant default_config) as (_ & Hinv & _).
  exact (conj Hclocks (conj Hin (Hinv sample_trace "9f1c" _ Hclocks Hin))).
Defined.

(** C3 as stated fails on the code: the two clock readings of one
    [share_file] need not agree.  One microsecond apart, the entry expires
    seven days and one microsecond after its creation; and were the clock
    set back by eight days in between, it would expire before it was
    created. *)
Lemma share_file_expiry_counterexample :
  (∃ info,
      shared_links (after (share_file default_config (sample_env 0 1 "9f1c")
                             "a.txt" sample_state)) !! "9f1c" = Some info
      ∧ created_at info = 0
      ∧ expires_at info = 604800000001
      ∧ expires_at info ≠ created_at info + 7 * 86400 * 1000000)
  ∧ (∃ info,
        shared_links (after (share_file default_config
                               (sample_env (8 * 86400 * 1000000) 0 "9f1c")
                               "a.txt" sample_state)) !! "9f1c" = Some info
        ∧ ¬ expires_at info > created_at info).
Proof.
  split.
  - eexists. split; [vm_compute; reflexivity |]. cbn. repeat split; lia.
  - eexists. split; [vm_compute; reflexivity |]. cbn. lia.
Qed.

(** ** The filename deduplicator *)

Section Strings.

Lemma substring_all s : String.substring 0 (String.length s) s = s.
Proof. induction s as [| c s IH]; cbn; [done | by rewrite IH]. Qed.

Lemma substring_cut s n :
  String.substring 0 n s +:+ String.substring n (String.length s - n) s = s.
Proof.
  revert n. induction s as [| c s IH]; intros [| n]; cbn; try done.
  - by rewrite substring_all.
  - change (String c (String.substring 0 n s
                      +:+ String.substring n (String.length s - n) s) = String c s).
    by rewrite IH.
Qed.

Lemma contains_app c a b :
  Py.contains c (a +:+ b) = Py.contains c a || Py.contains c b.
Proof.
  induction a as [| x a IH]; [done |].
  change (Ascii.eqb x c || Py.contains c (a +:+ b)
          = Ascii.eqb x c || Py.contains c a || Py.contains c b).
  rewrite IH. by rewrite orb_assoc.
Qed.

Lemma splitext_app p name ext : OsPath.splitext p = (name, ext) → name +:+ ext = p.
Proof.
  unfold OsPath.splitext. destruct (_ && _); intros [= <- <-].
  - apply substring_cut.
  - induction p as [| c p IH]; [done |].
    change (String c (p +:+ "") = String c p). by rewrite IH.
Qed.

End Strings.

Section Hex.

Lemma hex_char_cases m :
  0 <= m < 16 →
  hex_char m ≠ OsPath.sep ∧ hex_value (hex_char m) = m.
Proof.
  intros Hm.
  assert (m = 0 ∨ m = 1 ∨ m = 2 ∨ m = 3 ∨ m = 4 ∨ m = 5 ∨ m = 6 ∨ m = 7
          ∨ m = 8 ∨ m = 9 ∨ m = 10 ∨ m = 11 ∨ m = 12 ∨ m = 13 ∨ m = 14 ∨ m = 15)
    as Hcases by lia.
  repeat (destruct Hcases as [-> | Hcases]; [by split |]). by subst.
Qed.

Lemma hex_digits_no_sep n v : Py.contains OsPath.sep (hex_digits n v) = false.
Proof.
  induction n as [| k IH]; cbn [hex_digits Py.contains]; [done |].
  rewrite IH, orb_false_r.
  destruct (hex_char_cases (Z.shiftr v (4 * Z.of_nat k) mod 16)) as [Hne _].
  { apply Z.mod_pos_bound. lia. }
  by apply Ascii.eqb_neq.
Qed.

Lemma hex_digits_length n v : String.length (hex_digits n v) = n.
Proof. induction n as [| k IH]; cbn; [done | by rewrite IH]. Qed.

(** The first [a] of [a + b] digits are the digits of the value shifted
    right by [b] digits. *)
Lemma hex_digits_prefix a b v :
  String.substring 0 a (hex_digits (a + b) v)
  = hex_digits a (Z.shiftr v (4 * Z.of_nat b)).
Proof.
  induction a as [| a IH]; cbn [Nat.add hex_digits String.substring].
  - by destruct (hex_digits b v).
  - rewrite IH. f_equal. f_equal. rewrite Z.shiftr_shiftr by lia.
    f_equal. f_equal. lia.
Qed.

Lemma unhex_hex_digits n v acc :
  0 <= v →
  unhex_from acc (hex_digits n v) = acc * 16 ^ Z.of_nat n + v mod 16 ^ Z.of_nat n.
Proof.
  intros Hv. revert acc.
  induction n as [| k IH]; intros acc; cbn [hex_digits unhex_from].
  - cbn. rewrite Z.mod_1_r. lia.
  - rewrite IH.
    destruct (hex_char_cases (Z.shiftr v (4 * Z.of_nat k) mod 16)) as [_ ->].
    { apply Z.mod_pos_bound. lia. }
    rewrite Z.shiftr_div_pow2 by lia.
    replace (2 ^ (4 * Z.of_nat k)) with (16 ^ Z.of_nat k)
      by (rewrite Z.pow_mul_r by lia; reflexivity).
    rewrite Nat2Z.inj_succ, Z.pow_succ_r by lia.
    assert (0 < 16 ^ Z.of_nat k) by (apply Z.pow_pos_nonneg; lia).
    rewrite (Z.mul_comm 16 (16 ^ Z.of_nat k)).
    rewrite (Z.rem_mul_r v (16 ^ Z.of_nat k) 16) by lia.
    lia.
Qed.

End Hex.

(** The ten digits of [unique_hash] spell the top 40 bits of the digest. *)
Lemma unique_hash_top_bits digest :
  unique_hash digest = hex_digits 10 (Z.shiftr (digest mod 2 ^ 128) 88).
Proof.
  unfold unique_hash, hexdigest, Py.slice_to.
  change (Z.to_nat 10) with 10%nat.
  exact (hex_digits_prefix 10 22 (digest mod 2 ^ 128)).
Qed.

Lemma top_bits_range digest : 0 <= Z.shiftr (digest mod 2 ^ 128) 88 < 2 ^ 40.
Proof.
  rewrite Z.shiftr_div_pow2 by lia.
  assert (0 <= digest mod 2 ^ 128 < 2 ^ 128) by (apply Z.mod_pos_bound; lia).
  split; [apply Z.div_pos; lia |].
  apply Z.div_lt_upper_bound; [lia |].
  replace (2 ^ 88 * 2 ^ 40) with (2 ^ 128) by reflexivity. lia.
Qed.

(** The deduplicator keeps every directory separator of the requested name
    and adds none. *)
Lemma generate_unique_filename_separators original_filename digest :
  Py.contains OsPath.sep (_generate_unique_filename original_filename digest)
  = Py.contains OsPath.sep original_filename.
Proof.
  unfold _generate_unique_filename.
  destruct (OsPath.splitext original_filename) as [name ext] eqn:Hsplit.
  apply splitext_app in Hsplit. rewrite <- Hsplit.
  rewrite !contains_app, unique_hash_top_bits, hex_digits_no_sep. by cbn.
Qed.

(** C1, on the code.  The deduplicator hands back whatever directory
    separators and [..] components the client put in the name, and [upload]
    joins the result to the upload folder as it is: [../evil.txt] is saved
    as [uploads/../evil_0000000000.txt], next to the upload folder, and an
    absolute name replaces the folder altogether. *)
Theorem upload_path_traversal :
  _generate_unique_filename "../evil.txt" 0 = "../evil_0000000000.txt"
  ∧ safe_name (_generate_unique_filename "../evil.txt" 0) = false
  ∧ resp (upload default_config (sample_env 0 0 "u")
            (Some {| Werkzeug.filename := "../evil.txt";
                     Werkzeug.stream := [Init.Byte.x68] |}) initial_state)
    = Redirect UrlListFiles
  ∧ storage (after (upload default_config (sample_env 0 0 "u")
                      (Some {| Werkzeug.filename := "../evil.txt";
                               Werkzeug.stream := [Init.Byte.x68] |}) initial_state))
    = {[ "uploads/../evil_0000000000.txt" := [Init.Byte.x68] ]}
  ∧ OsPath.join (upload_folder default_config)
      (_generate_unique_filename "/tmp/evil.sh" 0) = "/tmp/evil_0000000000.sh"
  ∧ (∀ original_filename digest,
        Py.contains OsPath.sep (_generate_unique_filename original_filename digest)
        = Py.contains OsPath.sep original_filename).
Proof.
  split; [vm_compute; reflexivity |].
  split; [vm_compute; reflexivity |].
  split; [vm_compute; reflexivity |].
  split; [vm_compute; reflexivity |].
  split; [vm_compute; reflexivity |].
  apply generate_unique_filename_separators.
Qed.

(** ** How many suffixes there are *)

Section Pigeonhole.

Variable g : Z → Z.

Lemma bounded_search y n :
  0 <= n → (∃ i, 0 <= i < n ∧ g i = y) ∨ (∀ i, 0 <= i < n → g i ≠ y).
Proof.
  intros Hn. pattern n. apply natlike_ind; [right; lia | | exact Hn].
  intros x Hx [(i & Hi & Heq) | Hnone].
  - left. exists i. split; [lia | done].
  - destruct (Z.eq_dec (g x) y) as [Heq | Hne].
    + left. exists x. split; [lia | done].
    + right. intros i Hi. destruct (Z.eq_dec i x) as [-> | Hix]; [done |].
      apply Hnone. lia.
Qed.

End Pigeonhole.

(** [n] values drawn from fewer than [n] possibilities: two coincide. *)
Lemma pigeonhole_Z m :
  0 <= m →
  ∀ n (g : Z → Z), m < n → (∀ i, 0 <= i < n → 0 <= g i < m) →
  ∃ i j, 0 <= i ∧ i < j ∧ j < n ∧ g i = g j.
Proof.
  intros Hm. pattern m. apply natlike_ind; [| | exact Hm]; clear m Hm.
  - intros n g Hn Hg. specialize (Hg 0). lia.
  - intros m Hm IH n g Hn Hg.
    destruct (bounded_search g (g (n - 1)) (n - 1)) as [(i & Hi & Heq) | Hnone]; [lia | |].
    + exists i, (n - 1). repeat split; [lia .. | done].
    + pose (g' := fun i => if Z.eq_dec (g i) m then g (n - 1) else g i).
      destruct (IH (n - 1) g') as (i & j & Hi & Hij & Hj & Heq); [lia | |].
      * intros i Hi. unfold g'. destruct (Z.eq_dec (g i) m) as [Him | Him].
        -- specialize (Hnone i Hi). specialize (Hg (n - 1)). lia.
        -- specialize (Hg i). lia.
      * unfold g' in Heq.
        destruct (Z.eq_dec (g i) m) as [Him | Him], (Z.eq_dec (g j) m) as [Hjm | Hjm].
        -- exists i, j. repeat split; [lia .. |]. congruence.
        -- exfalso. apply (Hnone j); [lia | congruence].
        -- exfalso. apply (Hnone i); [lia | congruence].
        -- exists i, j. repeat split; [lia .. | done].
Qed.

(** There are no more than [2^40] suffixes. *)
Lemma suffix_space_bound n : 2 ^ 40 < n → ¬ suffix_space_at_least n.
Proof.
  intros Hn [f Hinj].
  destruct (pigeonhole_Z (2 ^ 40) ltac:(lia) n
              (fun i => Z.shiftr (f i mod 2 ^ 128) 88) Hn)
    as (i & j & Hi & Hij & Hj & Heq).
  { intros i _. apply top_bits_range. }
  cbv beta in Heq.
  assert (i = j); [| lia].
  apply Hinj; [lia .. |]. by rewrite !unique_hash_top_bits, Heq.
Qed.

Lemma unhex_unique_hash digest :
  unhex (unique_hash digest) = Z.shiftr (digest mod 2 ^ 128) 88.
Proof.
  pose proof (top_bits_range digest) as Hrange.
  rewrite unique_hash_top_bits. unfold unhex.
  rewrite unhex_hex_digits by lia.
  change (16 ^ Z.of_nat 10) with (2 ^ 40).
  rewrite Z.mod_small by lia. lia.
Qed.

(** C8, as the code has it.  The suffix is the first ten hexadecimal digits
    of the digest, that is its top 40 bits and nothing else: read back as a
    number it is that 40-bit value.  Its value space therefore has [2^40]
    values and no more. *)
Theorem unique_hash_forty_bits :
  (∀ digest,
      String.length (unique_hash digest) = 10%nat
      ∧ unique_hash digest = hex_digits 10 (Z.shiftr (digest mod 2 ^ 128) 88)
      ∧ unhex (unique_hash digest) = Z.shiftr (digest mod 2 ^ 128) 88
      ∧ 0 <= unhex (unique_hash digest) < 2 ^ 40)
  ∧ suffix_space_at_least (2 ^ 40)
  ∧ ¬ suffix_space_at_least (2 ^ 40 + 1).
Proof.
  split; [| split].
  - intros digest. rewrite unhex_unique_hash.
    split; [by rewrite unique_hash_top_bits, hex_digits_length |].
    split; [apply unique_hash_top_bits |].
    split; [done | apply top_bits_range].
  - exists (fun i => i * 2 ^ 88). intros i j Hi Hj Heq.
    apply (f_equal unhex) in Heq. rewrite !unhex_unique_hash in Heq.
    assert (Htop : ∀ k, 0 <= k < 2 ^ 40 → Z.shiftr ((k * 2 ^ 88) mod 2 ^ 128) 88 = k).
    { intros k Hk. rewrite Z.mod_small.
      - rewrite Z.shiftr_div_pow2 by lia. apply Z.div_mul. lia.
      - replace (2 ^ 128) with (2 ^ 40 * 2 ^ 88) by reflexivity. nia. }
    by rewrite !Htop in Heq.
  - apply suffix_space_bound. lia.
Qed.

(** C8 as stated fails on the code: no [2^64] digests have pairwise distinct
    suffixes. *)
Lemma suffix_space_below_64_bits : ¬ suffix_space_at_least (2 ^ 64).
Proof. apply suffix_space_bound. reflexivity. Qed.

(** * Further properties of the views *)

(** ** More on uploading *)

(** The six ways [upload] can end. *)
Lemma upload_cases cfg e files st :
  (content_length e > max_file_size cfg
   ∧ upload cfg e files st = Outcome EntityTooLarge [] st)
  ∨ (content_length e <= max_file_size cfg ∧ files = None
     ∧ upload cfg e files st = Outcome (Render (IndexPage (Some NoFilePart)) 400) [] st)
  ∨ (∃ file, content_length e <= max_file_size cfg
       ∧ files = Some file ∧ Werkzeug.filename file = ""
       ∧ upload cfg e files st = Outcome (Render (IndexPage (Some NoSelectedFile)) 400) [] st)
  ∨ (∃ file, content_length e <= max_file_size cfg
       ∧ files = Some file ∧ Werkzeug.filename file ≠ ""
       ∧ Z.of_nat (length (Werkzeug.stream file)) > max_file_size cfg
       ∧ upload cfg e files st
         = Outcome (Render (IndexPage (Some (FileTooLarge (max_file_size cfg)))) 400) [] st)
  ∨ (∃ file exn, content_length e <= max_file_size cfg
       ∧ files = Some file ∧ Werkzeug.filename file ≠ ""
       ∧ Z.of_nat (length (Werkzeug.stream file)) <= max_file_size cfg
       ∧ os_error e = Some exn
       ∧ upload cfg e files st
         = Outcome (Unhandled exn) []
             match bytes_saved e with
             | Some k =>
                 Os.save (OsPath.join (upload_folder cfg)
                            (_generate_unique_filename (Werkzeug.filename file)
                               (md5_digest e)))
                         (take k (Werkzeug.stream file)) st
             | None => st
             end)
  ∨ (∃ file, content_length e <= max_file_size cfg
       ∧ files = Some file ∧ Werkzeug.filename file ≠ ""
       ∧ Z.of_nat (length (Werkzeug.stream file)) <= max_file_size cfg
       ∧ os_error e = None
       ∧ upload cfg e files st
         = Outcome (Redirect UrlListFiles)
             [("File " +:+ _generate_unique_filename (Werkzeug.filename file) (md5_digest e)
                 +:+ " uploaded successfully!", "success")]
             (Os.save (OsPath.join (upload_folder cfg)
                         (_generate_unique_filename (Werkzeug.filename file) (md5_digest e)))
                      (Werkzeug.stream file) st)).
Proof.
  destruct (Z.le_gt_cases (content_length e) (max_file_size cfg)) as [Hbody | Hbody].
  2: { left. split; [lia |]. apply upload_too_long. lia. }
  right. destruct files as [file |].
  2: { left. repeat split; try done. unfold upload.
       destruct (Z.gtb_spec (content_length e) (max_file_size cfg)); [lia | done]. }
  right. destruct (decide (Werkzeug.filename file = "")) as [Hempty | Hname].
  { left. exists file. repeat split; try done. unfold upload.
    destruct (Z.gtb_spec (content_length e) (max_file_size cfg)); [lia |].
    by rewrite Hempty. }
  right. rewrite (upload_nonempty_name cfg e file st Hbody Hname).
  destruct (Z.gtb_spec (Z.of_nat (length (Werkzeug.stream file))) (max_file_size cfg)).
  { left. exists file. repeat split; try done. lia. }
  right. cbv zeta. destruct (os_error e) as [exn |] eqn:Hos.
  - left. exists file, exn. repeat split; try done.
  - right. exists file. repeat split; try done.
Qed.

(** X1. [upload] always produces a response (the view never falls through
    to return [None]) and never touches the registry.  A body longer than
    the limit is refused by Flask before the view tests anything; within
    the limit, a request without a file part and one whose file has an
    empty name are answered 400.  Every 400 and 413 leaves the disk as it
    was and flashes nothing.  A 500 means the operating system refused the
    save: the disk is then as before, or holds at the target path the first
    bytes of the upload. *)
Theorem upload_fails_clean cfg e files st :
  resp (upload cfg e files st) ≠ ReturnedNone
  ∧ shared_links (after (upload cfg e files st)) = shared_links st
  ∧ (content_length e > max_file_size cfg →
     upload cfg e files st = Outcome EntityTooLarge [] st)
  ∧ (content_length e <= max_file_size cfg →
     upload cfg e None st = Outcome (Render (IndexPage (Some NoFilePart)) 400) [] st
     ∧ ∀ content,
         upload cfg e (Some {| Werkzeug.filename := ""; Werkzeug.stream := content |}) st
         = Outcome (Render (IndexPage (Some NoSelectedFile)) 400) [] st)
  ∧ (status_of (resp (upload cfg e files st)) = 400
     ∨ status_of (resp (upload cfg e files st)) = 413 →
     after (upload cfg e files st) = st ∧ flashed (upload cfg e files st) = [])
  ∧ (status_of (resp (upload cfg e files st)) = 500 →
     is_Some (os_error e)
     ∧ (after (upload cfg e files st) = st
        ∨ ∃ file k,
            files = Some file ∧ bytes_saved e = Some k
            ∧ after (upload cfg e files st)
              = Os.save (OsPath.join (upload_folder cfg)
                           (_generate_unique_filename (Werkzeug.filename file)
                              (md5_digest e)))
                        (take k (Werkzeug.stream file)) st)).
Proof.
  split; [| split; [| split; [| split; [| split]]]].
  - destruct (upload_cases cfg e files st)
      as [[_ H] | [(_ & _ & H) | [(f & _ & _ & _ & H) | [(f & _ & _ & _ & _ & H)
          | [(f & x & _ & _ & _ & _ & _ & H) | (f & _ & _ & _ & _ & _ & H)]]]]];
      by rewrite H.
  - apply upload_registry.
  - apply upload_too_long.
  - intros Hbody. unfold upload.
    destruct (Z.gtb_spec (content_length e) (max_file_size cfg)); [lia | done].
  - destruct (upload_cases cfg e files st)
      as [[_ H] | [(_ & _ & H) | [(f & _ & _ & _ & H) | [(f & _ & _ & _ & _ & H)
          | [(f & x & _ & _ & _ & _ & _ & H) | (f & _ & _ & _ & _ & _ & H)]]]]];
      rewrite H; cbn; try done; intros [? | ?]; discriminate.
  - destruct (upload_cases cfg e files st)
      as [[_ H] | [(_ & _ & H) | [(f & _ & _ & _ & H) | [(f & _ & _ & _ & _ & H)
          | [(f & x & _ & -> & _ & _ & Hos & H) | (f & _ & _ & _ & _ & _ & H)]]]]];
      rewrite H; cbn; try discriminate.
    intros _. split; [by rewrite Hos |].
    destruct (bytes_saved e) as [k |]; [| by left]. right. by exists f, k.
Qed.

(** ** More on deleting *)

(** X4. A deleted file is gone for every view: once [delete_file] has run
    without an error from the operating system, deleting the same name again
    reports "File not found", [download] redirects with the same message
    instead of sending anything, and [share_file] refuses to make a link;
    none of the three changes the state. *)
Theorem delete_file_then_gone cfg e e' fname st :
  os_error e = None →
  let st' := after (delete_file cfg e fname st) in
  delete_file cfg e' fname st'
  = Outcome (Redirect UrlListFiles) [("File not found", "error")] st'
  ∧ download cfg fname st'
    = Outcome (Redirect UrlListFiles) [("File not found", "error")] st'
  ∧ share_file cfg e' fname st'
    = Outcome (Redirect UrlListFiles) [("File not found", "error")] st'.
Proof.
  intros Hok st'.
  assert (Hgone : Os.exists_ (OsPath.join (upload_folder cfg) fname) st' = false)
    by (by apply delete_file_gone).
  split; [| split].
  - unfold delete_file. by rewrite Hgone.
  - apply exists_false in Hgone as [Hnofile Hnodir].
    unfold download. by rewrite (send_file_nothing _ _ Hnofile Hnodir).
  - by apply share_file_missing.
Qed.

Lemma delete_file_then_gone_witness :
  os_error (sample_env 0 0 "u") = None
  ∧ (delete_file default_config (sample_env 1 1 "v") "a.txt"
       (after (delete_file default_config (sample_env 0 0 "u") "a.txt" sample_state))
     = Outcome (Redirect UrlListFiles) [("File not found", "error")]
         (after (delete_file default_config (sample_env 0 0 "u") "a.txt" sample_state))
     ∧ download default_config "a.txt"
         (after (delete_file default_config (sample_env 0 0 "u") "a.txt" sample_state))
       = Outcome (Redirect UrlListFiles) [("File not found", "error")]
           (after (delete_file default_config (sample_env 0 0 "u") "a.txt" sample_state))
     ∧ share_file default_config (sample_env 1 1 "v") "a.txt"
         (after (delete_file default_config (sample_env 0 0 "u") "a.txt" sample_state))
       = Outcome (Redirect UrlListFiles) [("File not found", "error")]
           (after (delete_file default_config (sample_env 0 0 "u") "a.txt" sample_state))).
Proof.
  assert (Hok : os_error (sample_env 0 0 "u") = None) by reflexivity.
  exact (conj Hok (delete_file_then_gone default_config (sample_env 0 0 "u")
                     (sample_env 1 1 "v") "a.txt" sample_state Hok)).
Defined.

(** ** Stored names and collisions *)

Section Append.

Lemma append_inj_l a b c : a +:+ b = a +:+ c → b = c.
Proof.
  induction a as [| x a IH]; [done |].
  change (String x (a +:+ b) = String x (a +:+ c) → b = c).
  intros [= H]. by apply IH.
Qed.

Lemma append_inj_r a b c :
  String.length a = String.length b → a +:+ c = b +:+ c → a = b.
Proof.
  revert b. induction a as [| x a IH]; intros [| y b] Hlen; try done.
  change (String x (a +:+ c) = String y (b +:+ c) → String x a = String y b).
  intros [= -> H]. f_equal. apply IH; [| done]. cbn in Hlen. lia.
Qed.

Lemma append_assoc a b c : (a +:+ b) +:+ c = a +:+ (b +:+ c).
Proof.
  induction a as [| x a IH]; [done |].
  change (String x ((a +:+ b) +:+ c) = String x (a +:+ (b +:+ c))). by rewrite IH.
Qed.

Lemma append_nil_r a : a +:+ "" = a.
Proof.
  induction a as [| x a IH]; [done |].
  change (String x (a +:+ "") = String x a). by rewrite IH.
Qed.

Lemma append_length a b :
  String.length (a +:+ b) = (String.length a + String.length b)%nat.
Proof.
  induction a as [| x a IH]; [done |].
  change (S (String.length (a +:+ b)) = S (String.length a + String.length b)).
  by rewrite IH.
Qed.

End Append.

Lemma unique_hash_length digest : String.length (unique_hash digest) = 10%nat.
Proof. by rewrite unique_hash_top_bits, hex_digits_length. Qed.

Lemma unique_hash_eq d1 d2 :
  unique_hash d1 = unique_hash d2
  ↔ Z.shiftr (d1 mod 2 ^ 128) 88 = Z.shiftr (d2 mod 2 ^ 128) 88.
Proof.
  split; intros H.
  - by rewrite <- !unhex_unique_hash, H.
  - by rewrite !unique_hash_top_bits, H.
Qed.

Lemma generate_unique_filename_same_hash original_filename d1 d2 :
  _generate_unique_filename original_filename d1
  = _generate_unique_filename original_filename d2 →
  unique_hash d1 = unique_hash d2.
Proof.
  unfold _generate_unique_filename.
  destruct (OsPath.splitext original_filename) as [name ext].
  intros H. apply append_inj_l, append_inj_l in H.
  apply append_inj_r in H; [done |]. by rewrite !unique_hash_length.
Qed.

(** X5. Two stored names made from the same requested name are equal
    exactly when the two digests agree on their top 40 bits: the remaining
    88 bits of the digest never tell two uploads apart. *)
Theorem generate_unique_filename_collides original_filename d1 d2 :
  _generate_unique_filename original_filename d1
  = _generate_unique_filename original_filename d2
  ↔ Z.shiftr (d1 mod 2 ^ 128) 88 = Z.shiftr (d2 mod 2 ^ 128) 88.
Proof.
  split.
  - intros H. by apply unique_hash_eq, (generate_unique_filename_same_hash original_filename).
  - intros H. apply unique_hash_eq in H. unfold _generate_unique_filename.
    by rewrite H.
Qed.

Lemma generate_unique_filename_length original_filename digest :
  String.length (_generate_unique_filename original_filename digest)
  = (String.length original_filename + 11)%nat.
Proof.
  unfold _generate_unique_filename.
  destruct (OsPath.splitext original_filename) as [name ext] eqn:Hsplit.
  apply splitext_app in Hsplit. rewrite <- Hsplit.
  rewrite !append_length, unique_hash_length. cbn. lia.
Qed.

(** X6. The stored name is always eleven characters longer than the
    requested one (an underscore and ten digits are inserted, nothing is
    dropped), so it is never empty, never [.] or [..], and never the
    requested name itself; it is a safe single path component exactly when
    the requested name holds no directory separator. *)
Theorem generate_unique_filename_shape original_filename digest :
  String.length (_generate_unique_filename original_filename digest)
  = (String.length original_filename + 11)%nat
  ∧ _generate_unique_filename original_filename digest ≠ original_filename
  ∧ safe_name (_generate_unique_filename original_filename digest)
    = negb (Py.contains OsPath.sep original_filename).
Proof.
  pose proof (generate_unique_filename_length original_filename digest) as Hlen.
  split; [done |]. split.
  - intros Heq. rewrite Heq in Hlen. lia.
  - unfold safe_name. rewrite generate_unique_filename_separators.
    assert (Hne : ∀ s, (String.length s < 11)%nat →
                       String.eqb (_generate_unique_filename original_filename digest) s
                       = false).
    { intros s Hs. apply String.eqb_neq. intros Heq. rewrite Heq in Hlen. lia. }
    rewrite !Hne by (cbn; lia). by rewrite !andb_true_r.
Qed.

Section Join.

Lemma join_inj folder a b :
  Py.startswith OsPath.sep a = Py.startswith OsPath.sep b →
  OsPath.join folder a = OsPath.join folder b → a = b.
Proof.
  unfold OsPath.join. intros <-.
  destruct (Py.startswith OsPath.sep a); [done |].
  destruct (_ || _); intros H.
  - by apply append_inj_l in H.
  - by apply append_inj_l, append_inj_l in H.
Qed.

Lemma generate_unique_filename_startswith original_filename d1 d2 :
  Py.startswith OsPath.sep (_generate_unique_filename original_filename d1)
  = Py.startswith OsPath.sep (_generate_unique_filename original_filename d2).
Proof.
  unfold _generate_unique_filename.
  destruct (OsPath.splitext original_filename) as [[| c name] ext]; reflexivity.
Qed.

End Join.

(** X7. Two accepted uploads under the same requested name (each body
    within the limit and holding its file, each save carried out).  If the
    two digests agree on their top 40 bits, both are saved at the same path
    and the second silently replaces the first: the disk ends as if the
    first upload had never happened.  If they differ there, the two paths
    differ and both contents are on disk afterwards. *)
Theorem uploads_same_name cfg e1 e2 f1 f2 st :
  Werkzeug.filename f1 ≠ "" →
  Werkzeug.filename f2 = Werkzeug.filename f1 →
  Z.of_nat (length (Werkzeug.stream f1)) < content_length e1 →
  Z.of_nat (length (Werkzeug.stream f2)) < content_length e2 →
  content_length e1 <= max_file_size cfg →
  content_length e2 <= max_file_size cfg →
  os_error e1 = None →
  os_error e2 = None →
  let p1 := OsPath.join (upload_folder cfg)
              (_generate_unique_filename (Werkzeug.filename f1) (md5_digest e1)) in
  let p2 := OsPath.join (upload_folder cfg)
              (_generate_unique_filename (Werkzeug.filename f1) (md5_digest e2)) in
  let st2 := after (upload cfg e2 (Some f2) (after (upload cfg e1 (Some f1) st))) in
  (Z.shiftr (md5_digest e1 mod 2 ^ 128) 88 = Z.shiftr (md5_digest e2 mod 2 ^ 128) 88 →
   p1 = p2
   ∧ storage st2 = <[p1 := Werkzeug.stream f2]> (storage st)
   ∧ storage st2 = storage (after (upload cfg e2 (Some f2) st)))
  ∧ (Z.shiftr (md5_digest e1 mod 2 ^ 128) 88 ≠ Z.shiftr (md5_digest e2 mod 2 ^ 128) 88 →
     p1 ≠ p2
     ∧ storage st2 !! p1 = Some (Werkzeug.stream f1)
     ∧ storage st2 !! p2 = Some (Werkzeug.stream f2)).
Proof.
  intros Hname Hsame Hbody1 Hbody2 Hlimit1 Hlimit2 Hok1 Hok2 p1 p2 st2.
  assert (Hname2 : Werkzeug.filename f2 ≠ "") by congruence.
  assert (Hup : ∀ e f s, Werkzeug.filename f ≠ "" →
                  Z.of_nat (length (Werkzeug.stream f)) < content_length e →
                  content_length e <= max_file_size cfg →
                  os_error e = None →
                  storage (after (upload cfg e (Some f) s))
                  = <[OsPath.join (upload_folder cfg)
                        (_generate_unique_filename (Werkzeug.filename f) (md5_digest e))
                      := Werkzeug.stream f]> (storage s)).
  { intros e f s Hn Hb Hl Ho. by rewrite (upload_accepted cfg e f s) by (done || lia). }
  assert (Hst2 : storage st2 = <[p2 := Werkzeug.stream f2]>
                                 (<[p1 := Werkzeug.stream f1]> (storage st))).
  { subst st2 p1 p2. rewrite (Hup e2 f2 _ Hname2 Hbody2 Hlimit2 Hok2), Hsame.
    by rewrite (Hup e1 f1 _ Hname Hbody1 Hlimit1 Hok1). }
  split.
  - intros Htop.
    assert (Hp : p1 = p2).
    { subst p1 p2. f_equal. apply unique_hash_eq in Htop.
      unfold _generate_unique_filename. by rewrite Htop. }
    split; [done |]. rewrite Hst2, <- Hp, insert_insert_eq. split; [done |].
    rewrite (Hup e2 f2 st Hname2 Hbody2 Hlimit2 Hok2), Hsame. by fold p2; rewrite <- Hp.
  - intros Htop.
    assert (Hp : p1 ≠ p2).
    { subst p1 p2. intros Heq. apply Htop, unique_hash_eq.
      apply (generate_unique_filename_same_hash (Werkzeug.filename f1)).
      eapply join_inj; [apply generate_unique_filename_startswith | exact Heq]. }
    split; [done |]. rewrite Hst2. split.
    + rewrite lookup_insert_ne by done. apply lookup_insert_eq.
    + apply lookup_insert_eq.
Qed.

Lemma uploads_same_name_witness :
  let e1 := sample_env_digest 1 in
  let e2 := sample_env_digest 2 in
  let e3 := sample_env_digest (2 ^ 88) in
  let f := sample_file "report.pdf" in
  let g := {| Werkzeug.filename := "report.pdf"; Werkzeug.stream := [Init.Byte.x00] |} in
  Z.of_nat (length (Werkzeug.stream f)) < content_length e1
  ∧ content_length e1 <= max_file_size default_config
  ∧ storage (after (upload default_config e2 (Some g)
                      (after (upload default_config e1 (Some f) initial_state))))
    = {[ "uploads/report_0000000000.pdf" := [Init.Byte.x00] ]}
  ∧ storage (after (upload default_config e3 (Some g)
                      (after (upload default_config e1 (Some f) initial_state))))
      !! "uploads/report_0000000000.pdf" = Some [Init.Byte.x25; Init.Byte.x50].
Proof.
  intros e1 e2 e3 f g.
  assert (Hname : Werkzeug.filename f ≠ "") by discriminate.
  assert (Hsame : Werkzeug.filename g = Werkzeug.filename f) by reflexivity.
  assert (Hbody1 : Z.of_nat (length (Werkzeug.stream f)) < content_length e1)
    by reflexivity.
  assert (Hbody2 : Z.of_nat (length (Werkzeug.stream g)) < content_length e2)
    by reflexivity.
  assert (Hbody3 : Z.of_nat (length (Werkzeug.stream g)) < content_length e3)
    by reflexivity.
  assert (Hlimit1 : content_length e1 <= max_file_size default_config)
    by (vm_compute; discriminate).
  assert (Hlimit2 : content_length e2 <= max_file_size default_config)
    by (vm_compute; discriminate).
  assert (Hlimit3 : content_length e3 <= max_file_size default_config)
    by (vm_compute; discriminate).
  destruct (uploads_same_name default_config e1 e2 f g initial_state
              Hname Hsame Hbody1 Hbody2 Hlimit1 Hlimit2 eq_refl eq_refl) as [Hclash _].
  destruct (uploads_same_name default_config e1 e3 f g initial_state
              Hname Hsame Hbody1 Hbody3 Hlimit1 Hlimit3 eq_refl eq_refl) as [_ Hapart].
  destruct (Hclash eq_refl) as (_ & Hlost & _).
  destruct (Hapart ltac:(vm_compute; discriminate)) as (_ & Hkept & _).
  exact (conj Hbody1 (conj Hlimit1 (conj Hlost Hkept))).
Defined.

(** ** Links over a run *)

(** A request that neither resolves a token nor draws it again leaves its
    entry, present or absent, as it is. *)
Lemma handle_other_token cfg e r st share_id :
  leaves_token share_id (e, r) →
  shared_links (after (handle cfg e r st)) !! share_id = shared_links st !! share_id.
Proof.
  intros [Hres Hdraw]. cbn in Hres, Hdraw.
  destruct (handle_registry_cases cfg e r st)
    as [H | [(sid & Hr & H) | (f & Hr & H)]]; rewrite H; [done | |].
  - apply lookup_delete_ne. congruence.
  - apply lookup_insert_ne. by eapply Hdraw.
Qed.

(** X9. Eviction is lazy and nothing else ever touches a link: over any
    run of requests in which a token is never resolved and never drawn
    again by [uuid4], its registry entry at the end is its entry at the
    start, however far the clock has advanced meanwhile.  In particular an
    expired link that nobody asks for stays in memory. *)
Theorem run_keeps_unaccessed_entries cfg trace st share_id :
  Forall (leaves_token share_id) trace →
  shared_links (run cfg trace st) !! share_id = shared_links st !! share_id.
Proof.
  intros Hleave. revert st.
  induction Hleave as [| [e r] rest Hhead _ IH]; intros st; cbn [run]; [done |].
  rewrite IH. by apply handle_other_token.
Qed.

Lemma run_keeps_unaccessed_entries_witness :
  Forall (leaves_token "tok") sample_trace
  ∧ shared_links (run default_config sample_trace sample_state) !! "tok"
    = shared_links sample_state !! "tok".
Proof.
  assert (H : Forall (leaves_token "tok") sample_trace).
  { repeat constructor; cbn; discriminate. }
  exact (conj H (run_keeps_unaccessed_entries default_config sample_trace sample_state
                   "tok" H)).
Defined.

(** X10. Every link in the registry was put there by [share_file]: after
    any run, an entry either was in the registry at the start, unchanged,
    or is exactly what some share request of the run wrote, under the
    identifier that request drew and with the two clock readings it took. *)
Theorem registry_provenance cfg trace st share_id info :
  shared_links (run cfg trace st) !! share_id = Some info →
  shared_links st !! share_id = Some info
  ∨ ∃ e fname,
      (e, ReqShare fname) ∈ trace
      ∧ share_id = uuid4 e
      ∧ info = {| filename := fname;
                  created_at := datetime_now e 0;
                  expires_at := datetime_now e 1 + 7 * 86400 * 1000000 |}.
Proof.
  revert st. induction trace as [| [e r] rest IH]; intros st; cbn [run]; [by left |].
  intros Hend. destruct (IH _ Hend) as [Hmid | (e' & f & Hin & Hid & Hinfo)].
  - destruct (handle_registry_cases cfg e r st)
      as [H | [(sid & Hr & H) | (f & Hr & H)]]; rewrite H in Hmid.
    + by left.
    + apply lookup_delete_Some in Hmid as [_ Hmid]. by left.
    + apply lookup_insert_Some in Hmid as [[Hid Hnew] | [_ Hmid]]; [| by left].
      right. exists e, f. subst r. split; [apply list_elem_of_here | done].
  - right. exists e', f. split; [by apply list_elem_of_further | done].
Qed.

Lemma registry_provenance_witness :
  shared_links (run default_config sample_trace initial_state) !! "9f1c"
  = Some {| filename := "report_0000000000.pdf"; created_at := 5;
            expires_at := 6 + 7 * 86400 * 1000000 |}
  ∧ (shared_links initial_state !! "9f1c"
     = Some {| filename := "report_0000000000.pdf"; created_at := 5;
               expires_at := 6 + 7 * 86400 * 1000000 |}
     ∨ ∃ e fname,
         (e, ReqShare fname) ∈ sample_trace
         ∧ "9f1c" = uuid4 e
         ∧ {| filename := "report_0000000000.pdf"; created_at := 5;
              expires_at := 6 + 7 * 86400 * 1000000 |}
           = {| filename := fname;
                created_at := datetime_now e 0;
                expires_at := datetime_now e 1 + 7 * 86400 * 1000000 |}).
Proof.
  assert (H : shared_links (run default_config sample_trace initial_state) !! "9f1c"
              = Some {| filename := "report_0000000000.pdf"; created_at := 5;
                        expires_at := 6 + 7 * 86400 * 1000000 |})
    by (vm_compute; reflexivity).
  exact (conj H (registry_provenance default_config sample_trace initial_state "9f1c" _ H)).
Defined.

(** X11. [share_file] does not ask whether the identifier it drew is
    already in use.  On an existing file it always ends with the new entry
    under that identifier: a free identifier makes the registry one entry
    larger, a taken one keeps its size and the link that was there now
    points to the new file with the new expiry. *)
Theorem share_file_identifier_reuse cfg e fname st :
  is_Some (storage st !! OsPath.join (upload_folder cfg) fname) →
  let reg' := shared_links (after (share_file cfg e fname st)) in
  reg' !! uuid4 e = Some {| filename := fname;
                            created_at := datetime_now e 0;
                            expires_at := datetime_now e 1 + 7 * 86400 * 1000000 |}
  ∧ (shared_links st !! uuid4 e = None → size reg' = S (size (shared_links st)))
  ∧ (is_Some (shared_links st !! uuid4 e) → size reg' = size (shared_links st)).
Proof.
  intros Hfile reg'. subst reg'. rewrite (share_file_present cfg e fname st Hfile).
  cbn [after registry_insert shared_links]. split; [apply lookup_insert_eq |]. split.
  - intros Hfree. by apply map_size_insert_None.
  - intros [old Hold]. by eapply map_size_insert_Some.
Qed.

Lemma share_file_identifier_reuse_witness :
  is_Some (storage sample_state !! OsPath.join (upload_folder default_config) "a.txt")
  ∧ shared_links (after (share_file default_config (sample_env 3 4 "tok") "a.txt"
                            sample_state)) !! "tok"
    = Some {| filename := "a.txt"; created_at := 3;
              expires_at := 4 + 7 * 86400 * 1000000 |}.
Proof.
  assert (H : is_Some (storage sample_state
                         !! OsPath.join (upload_folder default_config) "a.txt"))
    by (eexists; reflexivity).
  exact (conj H (proj1 (share_file_identifier_reuse default_config (sample_env 3 4 "tok")
                          "a.txt" sample_state H))).
Defined.

(** ** Plain names *)

Section Plain.

Lemma substring_app_skip a b m :
  String.substring (String.length a) m (a +:+ b) = String.substring 0 m b.
Proof. induction a as [| x a IH]; [done |]. exact IH. Qed.

Lemma slice_from_app a b : Py.slice_from (Py.len a) (a +:+ b) = b.
Proof.
  unfold Py.slice_from, Py.len. rewrite Nat2Z.id, append_length.
  replace (String.length a + String.length b - String.length a)%nat
    with (String.length b) by lia.
  rewrite substring_app_skip. apply substring_all.
Qed.

Lemma contains_startswith c n : Py.contains c n = false → Py.startswith c n = false.
Proof. destruct n as [| x n]; [done |]. cbn. by intros [? _]%orb_false_elim. Qed.

Lemma plain_name_no_sep n : plain_name n = true → Py.contains OsPath.sep n = false.
Proof.
  unfold plain_name. intros [H _]%andb_true_iff. by apply negb_true_iff in H.
Qed.

(** Inside one folder, two names without a separator that give the same
    path are the same name. *)
Lemma join_plain_inj folder a b :
  Py.contains OsPath.sep a = false →
  Py.contains OsPath.sep b = false →
  OsPath.join folder a = OsPath.join folder b → a = b.
Proof.
  intros Ha Hb. apply join_inj.
  by rewrite !contains_startswith.
Qed.

End Plain.

(** X3. [delete_file] always answers with the redirect to the list.  When
    nothing is at the path, neither a file nor a directory, it flashes
    "File not found"; when something is there and the operating system
    refuses the removal (as it always does for a directory) it flashes
    "Error deleting file:" with the text of the error; both leave the
    state unchanged.  Otherwise what was at the path is removed.  In every
    case the files stored under the other plain names of the folder keep
    their contents. *)
Theorem delete_file_outcome cfg e fname st :
  resp (delete_file cfg e fname st) = Redirect UrlListFiles
  ∧ (Os.exists_ (OsPath.join (upload_folder cfg) fname) st = false →
     delete_file cfg e fname st
     = Outcome (Redirect UrlListFiles) [("File not found", "error")] st)
  ∧ (∀ msg, Os.exists_ (OsPath.join (upload_folder cfg) fname) st = true →
            os_error e = Some msg →
            delete_file cfg e fname st
            = Outcome (Redirect UrlListFiles) [("Error deleting file: " +:+ msg, "error")] st)
  ∧ (Os.exists_ (OsPath.join (upload_folder cfg) fname) st = true →
     os_error e = None →
     delete_file cfg e fname st
     = Outcome (Redirect UrlListFiles)
         [("File " +:+ fname +:+ " deleted successfully!", "success")]
         (Os.remove (OsPath.join (upload_folder cfg) fname) st))
  ∧ (Os.exists_ (OsPath.join (upload_folder cfg) fname) st = true
     ↔ is_Some (storage st !! OsPath.join (upload_folder cfg) fname)
       ∨ OsPath.join (upload_folder cfg) fname ∈ directories st)
  ∧ (∀ other, plain_name fname = true → plain_name other = true → other ≠ fname →
              storage (after (delete_file cfg e fname st))
                !! OsPath.join (upload_folder cfg) other
              = storage st !! OsPath.join (upload_folder cfg) other).
Proof.
  split; [| split; [| split; [| split; [| split]]]].
  - unfold delete_file. destruct (negb _); [done |]. by destruct (os_error e).
  - intros Hnone. unfold delete_file. by rewrite Hnone.
  - intros msg Hsome Hos. unfold delete_file. by rewrite Hsome, Hos.
  - intros Hsome Hos. unfold delete_file. by rewrite Hsome, Hos.
  - apply exists_true.
  - intros other Hfname Hother Hne. unfold delete_file. destruct (negb _); [done |].
    destruct (os_error e); [done |]. cbn. apply lookup_delete_ne.
    intros Heq. apply Hne. symmetry.
    by eapply join_plain_inj; [apply plain_name_no_sep .. | exact Heq].
Qed.

(** ** The disk over a run *)

(** The three things a request can do to the files. *)
Lemma handle_storage_cases cfg e r st :
  storage (after (handle cfg e r st)) = storage st
  ∨ (∃ file content, r = ReqUpload (Some file)
       ∧ storage (after (handle cfg e r st))
         = <[OsPath.join (upload_folder cfg)
               (_generate_unique_filename (Werkzeug.filename file) (md5_digest e))
             := content]> (storage st)
       ∧ (content = Werkzeug.stream file
          ∨ is_Some (os_error e)
            ∧ ∃ k, bytes_saved e = Some k ∧ content = take k (Werkzeug.stream file)))
  ∨ (∃ fname, r = ReqDelete fname
       ∧ storage (after (handle cfg e r st))
         = delete (OsPath.join (upload_folder cfg) fname) (storage st)).
Proof.
  destruct r as [|files|f|f| |f|sid]; cbn [handle].
  - by left.
  - destruct (upload_cases cfg e files st)
      as [[_ H] | [(_ & _ & H) | [(fl & _ & _ & _ & H) | [(fl & _ & _ & _ & _ & H)
          | [(fl & x & _ & -> & _ & _ & Hos & H) | (fl & _ & -> & _ & _ & _ & H)]]]]];
      rewrite H; cbn [after]; auto.
    + destruct (bytes_saved e) as [k |] eqn:Hk; [| by left].
      right. left. exists fl, (take k (Werkzeug.stream fl)). split; [done |].
      split; [done |]. right. split; [by rewrite Hos |]. by exists k.
    + right. left. exists fl, (Werkzeug.stream fl). split; [done |]. split; [done |].
      by left.
  - left. by rewrite download_state.
  - unfold delete_file. destruct (negb _); [by left |].
    destruct (os_error e); [by left |]. right. right. by exists f.
  - by left.
  - left. unfold share_file. by destruct (negb _).
  - left. destruct (shared_download_after cfg e sid st) as [H | [H _]]; by rewrite H.
Qed.

(** X12. Files outlive everything but their own deletion.  Take a run
    whose requests carry plain names, and a plain name that no request of
    the run deletes and that no upload of the run is stored under: what the
    disk holds under that name at the end is what it held at the start.
    Listing, downloading, making links, resolving them and letting them
    expire never remove or alter a file. *)
Theorem run_keeps_files cfg trace st n :
  plain_name n = true →
  Forall plain_request trace →
  Forall (leaves_name n) trace →
  storage (run cfg trace st) !! OsPath.join (upload_folder cfg) n
  = storage st !! OsPath.join (upload_folder cfg) n.
Proof.
  intros Hn Hplain Hleave. revert st.
  induction trace as [| [e r] rest IH]; intros st; cbn [run]; [done |].
  apply Forall_cons in Hplain as [Hhead Hplain].
  apply Forall_cons in Hleave as [[Hdel Hup] Hleave].
  rewrite (IH Hplain Hleave). cbn in Hhead, Hdel, Hup.
  pose proof (plain_name_no_sep n Hn) as Hn_sep.
  destruct (handle_storage_cases cfg e r st)
    as [H | [(file & content & -> & H & _) | (f & -> & H)]]; rewrite H; [done | |].
  - apply lookup_insert_ne. intros Heq. apply (Hup file eq_refl).
    eapply join_plain_inj; [| exact Hn_sep | exact Heq].
    rewrite generate_unique_filename_separators. by apply plain_name_no_sep.
  - apply lookup_delete_ne. intros Heq. apply Hdel. f_equal.
    eapply join_plain_inj; [| exact Hn_sep | exact Heq]. by apply plain_name_no_sep.
Qed.

Lemma run_keeps_files_witness :
  plain_name "a.txt" = true
  ∧ Forall plain_request
      [ (sample_env 0 0 "9f1c", ReqShare "a.txt");
        (sample_env (8 * 86400 * 1000000) 0 "u", ReqSharedDownload "9f1c");
        (sample_env 0 0 "u", ReqUpload (Some (sample_file "report.pdf")));
        (sample_env 0 0 "u", ReqDelete "report_0000000000.pdf") ]
  ∧ Forall (leaves_name "a.txt")
      [ (sample_env 0 0 "9f1c", ReqShare "a.txt");
        (sample_env (8 * 86400 * 1000000) 0 "u", ReqSharedDownload "9f1c");
        (sample_env 0 0 "u", ReqUpload (Some (sample_file "report.pdf")));
        (sample_env 0 0 "u", ReqDelete "report_0000000000.pdf") ]
  ∧ storage (run default_config
               [ (sample_env 0 0 "9f1c", ReqShare "a.txt");
                 (sample_env (8 * 86400 * 1000000) 0 "u", ReqSharedDownload "9f1c");
                 (sample_env 0 0 "u", ReqUpload (Some (sample_file "report.pdf")));
                 (sample_env 0 0 "u", ReqDelete "report_0000000000.pdf") ]
               sample_state) !! OsPath.join (upload_folder default_config) "a.txt"
    = storage sample_state !! OsPath.join (upload_folder default_config) "a.txt".
Proof.
  assert (Hn : plain_name "a.txt" = true) by reflexivity.
  assert (Hplain : Forall plain_request
                     [ (sample_env 0 0 "9f1c", ReqShare "a.txt");
                       (sample_env (8 * 86400 * 1000000) 0 "u", ReqSharedDownload "9f1c");
                       (sample_env 0 0 "u", ReqUpload (Some (sample_file "report.pdf")));
                       (sample_env 0 0 "u", ReqDelete "report_0000000000.pdf") ]).
  { repeat constructor. }
  assert (Hleave : Forall (leaves_name "a.txt")
                     [ (sample_env 0 0 "9f1c", ReqShare "a.txt");
                       (sample_env (8 * 86400 * 1000000) 0 "u", ReqSharedDownload "9f1c");
                       (sample_env 0 0 "u", ReqUpload (Some (sample_file "report.pdf")));
                       (sample_env 0 0 "u", ReqDelete "report_0000000000.pdf") ]).
  { repeat constructor; cbn; try discriminate.
    intros file [= <-]. vm_compute. discriminate. }
  exact (conj Hn (conj Hplain (conj Hleave
           (run_keeps_files default_config _ sample_state "a.txt" Hn Hplain Hleave)))).
Defined.

(** X13. Every file of the folder was put there by [upload].  Take a run
    whose requests carry plain names: what the disk holds under a plain
    name at the end either was there at the start or was written by an
    upload of the run that is stored under that name, and is the byte
    stream of that upload, or its first bytes if the save was cut short. *)
Theorem storage_provenance cfg trace st n content :
  plain_name n = true →
  Forall plain_request trace →
  storage (run cfg trace st) !! OsPath.join (upload_folder cfg) n = Some content →
  storage st !! OsPath.join (upload_folder cfg) n = Some content
  ∨ ∃ e file,
      (e, ReqUpload (Some file)) ∈ trace
      ∧ n = _generate_unique_filename (Werkzeug.filename file) (md5_digest e)
      ∧ (content = Werkzeug.stream file
         ∨ is_Some (os_error e)
           ∧ ∃ k, bytes_saved e = Some k ∧ content = take k (Werkzeug.stream file)).
Proof.
  intros Hn Hplain. revert st.
  induction trace as [| [e r] rest IH]; intros st; cbn [run]; [by left |].
  apply Forall_cons in Hplain as [Hhead Hplain]. cbn in Hhead.
  pose proof (plain_name_no_sep n Hn) as Hn_sep.
  intros Hend. destruct (IH Hplain _ Hend) as [Hmid | (e' & f & Hin & Hname & Hcontent)].
  - destruct (handle_storage_cases cfg e r st)
      as [H | [(file & c & -> & H & Hc) | (f & -> & H)]]; rewrite H in Hmid.
    + by left.
    + apply lookup_insert_Some in Hmid as [[Hpath <-] | [_ Hmid]]; [| by left].
      right. exists e, file. split; [apply list_elem_of_here |]. split; [| done].
      symmetry. eapply join_plain_inj; [| exact Hn_sep | exact Hpath].
      rewrite generate_unique_filename_separators. by apply plain_name_no_sep.
    + apply lookup_delete_Some in Hmid as [_ Hmid]. by left.
  - right. exists e', f. split; [by apply list_elem_of_further | done].
Qed.

Lemma storage_provenance_witness :
  plain_name "report_0000000000.pdf" = true
  ∧ Forall plain_request sample_trace
  ∧ storage (run default_config sample_trace initial_state)
      !! OsPath.join (upload_folder default_config) "report_0000000000.pdf"
    = Some [Init.Byte.x25; Init.Byte.x50]
  ∧ (storage initial_state
       !! OsPath.join (upload_folder default_config) "report_0000000000.pdf"
     = Some [Init.Byte.x25; Init.Byte.x50]
     ∨ ∃ e file,
         (e, ReqUpload (Some file)) ∈ sample_trace
         ∧ "report_0000000000.pdf"
           = _generate_unique_filename (Werkzeug.filename file) (md5_digest e)
         ∧ ([Init.Byte.x25; Init.Byte.x50] = Werkzeug.stream file
            ∨ is_Some (os_error e)
              ∧ ∃ k, bytes_saved e = Some k
                     ∧ [Init.Byte.x25; Init.Byte.x50] = take k (Werkzeug.stream file))).
Proof.
  assert (Hn : plain_name "report_0000000000.pdf" = true) by reflexivity.
  assert (Hplain : Forall plain_request sample_trace) by repeat constructor.
  assert (H : storage (run default_config sample_trace initial_state)
                !! OsPath.join (upload_folder default_config) "report_0000000000.pdf"
              = Some [Init.Byte.x25; Init.Byte.x50])
    by (vm_compute; reflexivity).
  exact (conj Hn (conj Hplain (conj H
           (storage_provenance default_config sample_trace initial_state _ _ Hn Hplain H)))).
Defined.

(** X18. What was uploaded can be shared and deleted under its stored
    name.  After an accepted upload, [share_file] of the stored name finds
    the file and registers a link to it (200); and [delete_file] of the
    stored name, when the operating system carries the removal out, flashes
    the success message and leaves the files as they were before the
    upload, apart from whatever had been at that path. *)
Theorem upload_then_share_or_delete cfg e e' file st :
  Werkzeug.filename file ≠ "" →
  Z.of_nat (length (Werkzeug.stream file)) < content_length e →
  content_length e <= max_file_size cfg →
  os_error e = None →
  let stored := _generate_unique_filename (Werkzeug.filename file) (md5_digest e) in
  let st' := after (upload cfg e (Some file) st) in
  share_file cfg e' stored st'
  = Outcome (Render (SharePage stored (UrlSharedDownload (uuid4 e')) 7) 200) []
      (registry_insert (uuid4 e')
         {| filename := stored;
            created_at := datetime_now e' 0;
            expires_at := datetime_now e' 1 + 7 * 86400 * 1000000 |} st')
  ∧ (os_error e' = None →
     delete_file cfg e' stored st'
     = Outcome (Redirect UrlListFiles)
         [("File " +:+ stored +:+ " deleted successfully!", "success")]
         (Os.remove (OsPath.join (upload_folder cfg) stored) st')
     ∧ storage (after (delete_file cfg e' stored st'))
       = delete (OsPath.join (upload_folder cfg) stored) (storage st)).
Proof.
  intros Hname Hbody Hlimit Hok stored st'.
  assert (Hst' : st' = Os.save (OsPath.join (upload_folder cfg) stored)
                         (Werkzeug.stream file) st).
  { subst st'. by rewrite (upload_accepted cfg e file st) by (done || lia). }
  assert (Hfile : storage st' !! OsPath.join (upload_folder cfg) stored
                  = Some (Werkzeug.stream file)).
  { rewrite Hst'. cbn. apply lookup_insert_eq. }
  assert (Hex : Os.exists_ (OsPath.join (upload_folder cfg) stored) st' = true)
    by (apply exists_file; by eexists).
  split; [by apply share_file_exists |].
  intros Hok'. unfold delete_file. rewrite Hex, Hok'. cbn [negb after]. split; [done |].
  rewrite Hst'. cbn. apply delete_insert_eq.
Qed.

Lemma upload_then_share_or_delete_witness :
  let e := sample_env 0 0 "u" in
  let e' := sample_env 5 6 "9f1c" in
  let st' := after (upload default_config e (Some (sample_file "report.pdf")) sample_state) in
  Werkzeug.filename (sample_file "report.pdf") ≠ ""
  ∧ Z.of_nat (length (Werkzeug.stream (sample_file "report.pdf"))) < content_length e
  ∧ content_length e <= max_file_size default_config
  ∧ os_error e = None
  ∧ status_of (resp (share_file default_config e' "report_0000000000.pdf" st')) = 200
  ∧ storage (after (delete_file default_config e' "report_0000000000.pdf" st'))
    = delete "uploads/report_0000000000.pdf" (storage sample_state).
Proof.
  intros e e' st'.
  assert (Hname : Werkzeug.filename (sample_file "report.pdf") ≠ "") by discriminate.
  assert (Hbody : Z.of_nat (length (Werkzeug.stream (sample_file "report.pdf")))
                  < content_length e) by reflexivity.
  assert (Hlimit : content_length e <= max_file_size default_config)
    by (vm_compute; discriminate).
  assert (Hok : os_error e = None) by reflexivity.
  destruct (upload_then_share_or_delete default_config e e' (sample_file "report.pdf")
              sample_state Hname Hbody Hlimit Hok) as [Hshare Hdelete].
  refine (conj Hname (conj Hbody (conj Hlimit (conj Hok (conj _ (proj2 (Hdelete eq_refl))))))).
  exact (f_equal (fun o => status_of (resp o)) Hshare).
Defined.

(** ** Status codes *)


(** ** The extension of the stored name *)

Section Rfind.

Variable c : ascii.

Lemma rfind_from_spec s i found :
  Py.rfind_from c s i found = if Py.contains c s then i + Py.rfind c s else found.
Proof.
  revert i found. induction s as [| a rest IH]; intros i found; [done |].
  unfold Py.rfind. cbn [Py.rfind_from Py.contains]. rewrite !IH.
  destruct (Py.contains c rest), (Ascii.eqb a c); cbn [orb]; lia.
Qed.

Lemma rfind_absent s : Py.contains c s = false → Py.rfind c s = -1.
Proof. intros H. unfold Py.rfind. by rewrite rfind_from_spec, H. Qed.

Lemma rfind_cons a rest :
  Py.rfind c (String a rest)
  = if Py.contains c rest then 1 + Py.rfind c rest
    else if Ascii.eqb a c then 0 else -1.
Proof.
  unfold Py.rfind at 1. cbn [Py.rfind_from]. rewrite rfind_from_spec.
  by destruct (Py.contains c rest).
Qed.

Lemma rfind_range s : -1 <= Py.rfind c s < Py.len s.
Proof.
  unfold Py.len. induction s as [| a rest IH]; [cbn; lia |].
  rewrite rfind_cons. cbn [String.length].
  destruct (Py.contains c rest), (Ascii.eqb a c); lia.
Qed.

Lemma rfind_present s : Py.contains c s = true ↔ 0 <= Py.rfind c s.
Proof.
  split.
  - induction s as [| a rest IH]; [done |]. rewrite rfind_cons. cbn [Py.contains].
    destruct (Py.contains c rest); [intros _; specialize (IH eq_refl); lia |].
    by destruct (Ascii.eqb a c).
  - intros H. destruct (Py.contains c s) eqn:Hc; [done |].
    rewrite rfind_absent in H by done. lia.
Qed.

Lemma rfind_app a b :
  Py.rfind c (a +:+ b)
  = if Py.contains c b then Py.len a + Py.rfind c b else Py.rfind c a.
Proof.
  unfold Py.len. induction a as [| x a IH].
  - change ("" +:+ b) with b. destruct (Py.contains c b) eqn:Hb; [cbn; lia |].
    by rewrite rfind_absent.
  - change (String x a +:+ b) with (String x (a +:+ b)).
    rewrite !rfind_cons, contains_app, IH. cbn [String.length].
    destruct (Py.contains c b), (Py.contains c a); cbn [orb]; lia.
Qed.

(** The string around its last [c]. *)
Lemma rfind_split s :
  Py.contains c s = true →
  ∃ a rest, s = a +:+ String c rest
            ∧ Py.contains c rest = false
            ∧ Py.rfind c s = Py.len a.
Proof.
  unfold Py.len. induction s as [| x s IH]; [done |]. intros Hc.
  rewrite rfind_cons. destruct (Py.contains c s) eqn:Hs.
  - destruct (IH eq_refl) as (a & rest & -> & Hrest & Hlen).
    exists (String x a), rest. repeat split; [done |]. cbn [String.length]. lia.
  - cbn [Py.contains] in Hc. rewrite Hs, orb_false_r in Hc.
    rewrite Hc. apply Ascii.eqb_eq in Hc as ->. by exists "", s.
Qed.

End Rfind.

Section Slices.

Lemma substring_app_take a b : String.substring 0 (String.length a) (a +:+ b) = a.
Proof.
  induction a as [| x a IH]; [by destruct b |].
  change (String x (String.substring 0 (String.length a) (a +:+ b)) = String x a).
  by rewrite IH.
Qed.

Lemma substring_app_within a b n m :
  (n + m <= String.length a)%nat →
  String.substring n m (a +:+ b) = String.substring n m a.
Proof.
  revert n m. induction a as [| x a IH]; intros n m Hle.
  - cbn in Hle. assert (n = 0%nat ∧ m = 0%nat) as [-> ->] by lia. by destruct b.
  - change (String x a +:+ b) with (String x (a +:+ b)).
    cbn [String.length] in Hle. destruct n as [| n].
    + destruct m as [| m]; [done |]. cbn. f_equal. apply IH. lia.
    + cbn. apply IH. lia.
Qed.

Lemma slice_to_app a b : Py.slice_to (Py.len a) (a +:+ b) = a.
Proof. unfold Py.slice_to, Py.len. rewrite Nat2Z.id. apply substring_app_take. Qed.

Lemma slice_one_app_head a x b :
  Py.slice_one (Py.len a) (a +:+ String x b) = String x "".
Proof.
  unfold Py.slice_one, Py.len. rewrite Nat2Z.id, substring_app_skip.
  cbn. by destruct b.
Qed.

Lemma slice_one_app_within a b k :
  0 <= k < Py.len a → Py.slice_one k (a +:+ b) = Py.slice_one k a.
Proof.
  unfold Py.slice_one, Py.len. intros Hk. apply substring_app_within. lia.
Qed.

End Slices.

Section SkipDots.

Lemma skip_leading_dots_found q n : ∀ i k,
  (k < n)%nat →
  Py.slice_one (i + Z.of_nat k) q ≠ String OsPath.extsep "" →
  OsPath.skip_leading_dots q i n = true.
Proof.
  induction n as [| n IH]; intros i k Hk Hne; [lia |].
  cbn [OsPath.skip_leading_dots].
  destruct (String.eqb_spec (Py.slice_one i q) (String OsPath.extsep "")) as [Heq | _];
    [| done].
  cbn [negb]. destruct k as [| k].
  - rewrite Z.add_0_r in Hne. done.
  - apply (IH (i + 1) k); [lia |].
    by replace (i + 1 + Z.of_nat k) with (i + Z.of_nat (S k)) by lia.
Qed.

Lemma skip_leading_dots_ext p q n : ∀ i,
  (∀ k, (k < n)%nat → Py.slice_one (i + Z.of_nat k) p = Py.slice_one (i + Z.of_nat k) q) →
  OsPath.skip_leading_dots p i n = OsPath.skip_leading_dots q i n.
Proof.
  induction n as [| n IH]; intros i Hsame; [done |].
  cbn [OsPath.skip_leading_dots].
  pose proof (Hsame 0%nat ltac:(lia)) as Hhead.
  change (Z.of_nat 0) with 0 in Hhead. rewrite Z.add_0_r in Hhead.
  rewrite Hhead, (IH (i + 1)); [done |].
  intros k Hk. specialize (Hsame (S k) ltac:(lia)).
  by replace (i + 1 + Z.of_nat k) with (i + Z.of_nat (S k)) by lia.
Qed.

End SkipDots.

Lemma hex_digits_no_dot n v : Py.contains OsPath.extsep (hex_digits n v) = false.
Proof.
  induction n as [| k IH]; cbn [hex_digits Py.contains]; [done |].
  rewrite IH, orb_false_r. apply Ascii.eqb_neq.
  assert (Hm : 0 <= Z.shiftr v (4 * Z.of_nat k) mod 16 < 16)
    by (apply Z.mod_pos_bound; lia).
  generalize dependent (Z.shiftr v (4 * Z.of_nat k) mod 16). intros m Hm.
  assert (m = 0 ∨ m = 1 ∨ m = 2 ∨ m = 3 ∨ m = 4 ∨ m = 5 ∨ m = 6 ∨ m = 7
          ∨ m = 8 ∨ m = 9 ∨ m = 10 ∨ m = 11 ∨ m = 12 ∨ m = 13 ∨ m = 14 ∨ m = 15)
    as Hcases by lia.
  repeat (destruct Hcases as [-> | Hcases]; [done |]). by subst.
Qed.

(** X17. The stored name keeps the extension of the requested name:
    [os.path.splitext] splits it where it split the original, giving the
    original stem followed by the underscore and the ten digits, and the
    original extension unchanged (or none when there was none). *)
Theorem generate_unique_filename_keeps_extension original_filename digest :
  OsPath.splitext (_generate_unique_filename original_filename digest)
  = ((OsPath.splitext original_filename).1 +:+ "_" +:+ unique_hash digest,
     (OsPath.splitext original_filename).2).
Proof.
  set (h := unique_hash digest).
  assert (Hh_sep : Py.contains OsPath.sep h = false)
    by (unfold h; rewrite unique_hash_top_bits; apply hex_digits_no_sep).
  assert (Hh_dot : Py.contains OsPath.extsep h = false)
    by (unfold h; rewrite unique_hash_top_bits; apply hex_digits_no_dot).
  assert (Hh_len : Py.len h = 10)
    by (unfold h, Py.len; by rewrite unique_hash_length).
  unfold _generate_unique_filename. fold h.
  destruct (OsPath.splitext original_filename) as [name ext] eqn:Hsplit.
  cbn [fst snd]. unfold OsPath.splitext in Hsplit.
  pose proof (rfind_range OsPath.sep original_filename) as Hsep_range.
  pose proof (rfind_range OsPath.extsep original_filename) as Hdot_range.
  destruct (Py.rfind OsPath.extsep original_filename >? Py.rfind OsPath.sep original_filename)
    eqn:Hgt.
  2: { (* no dot after the last separator *)
    cbn [andb] in Hsplit. injection Hsplit as <- <-.
    rewrite append_nil_r. unfold OsPath.splitext.
    rewrite !rfind_app. cbn [Py.contains].
    rewrite !contains_app, Hh_sep, Hh_dot. cbn [Py.contains orb].
    change (Ascii.eqb "_" OsPath.sep) with false.
    change (Ascii.eqb "_" OsPath.extsep) with false. cbn [orb].
    by rewrite Hgt. }
  apply Z.gtb_lt in Hgt.
  assert (Hdot : Py.contains OsPath.extsep original_filename = true)
    by (apply rfind_present; lia).
  destruct (rfind_split OsPath.extsep original_filename Hdot)
    as (a & rest & -> & Hrest & Hlen).
  rewrite Hlen in Hgt, Hsplit.
  pose proof (rfind_range OsPath.sep a) as Ha_range.
  destruct (OsPath.skip_leading_dots _ _ _) eqn:Hskip.
  - (* the name has an extension *)
    cbn [andb] in Hsplit. rewrite slice_to_app, slice_from_app in Hsplit.
    injection Hsplit as <- <-.
    assert (Hsep_tail : Py.contains OsPath.sep (String OsPath.extsep rest) = false).
    { destruct (Py.contains OsPath.sep (String OsPath.extsep rest)) eqn:Htail; [| done].
      rewrite rfind_app, Htail in Hgt. apply rfind_present in Htail. lia. }
    rewrite rfind_app, Hsep_tail in Hgt.
    assert (Hq : a +:+ "_" +:+ h +:+ String OsPath.extsep rest
                 = (a +:+ "_" +:+ h) +:+ String OsPath.extsep rest)
      by (by rewrite !append_assoc).
    assert (Hlen_q : Py.len (a +:+ "_" +:+ h) = Py.len a + 11).
    { unfold Py.len in *. rewrite !append_length. cbn [String.length]. lia. }
    assert (Hdot_q : Py.rfind OsPath.extsep (a +:+ "_" +:+ h +:+ String OsPath.extsep rest)
                     = Py.len a + 11).
    { rewrite Hq, rfind_app. cbn [Py.contains].
      change (Ascii.eqb OsPath.extsep OsPath.extsep) with true. cbn [orb].
      rewrite rfind_cons, Hrest, Hlen_q.
      change (Ascii.eqb OsPath.extsep OsPath.extsep) with true. cbv iota. lia. }
    assert (Hsep_q : Py.rfind OsPath.sep (a +:+ "_" +:+ h +:+ String OsPath.extsep rest)
                     = Py.rfind OsPath.sep a).
    { rewrite rfind_app.
      replace (Py.contains OsPath.sep ("_" +:+ h +:+ String OsPath.extsep rest)) with false;
        [done |].
      rewrite !contains_app, Hh_sep, Hsep_tail. reflexivity. }
    unfold OsPath.splitext. rewrite Hdot_q, Hsep_q.
    destruct (Z.gtb_spec (Py.len a + 11) (Py.rfind OsPath.sep a)); [| lia].
    rewrite (skip_leading_dots_found _ _ (Py.rfind OsPath.sep a + 1)
               (Z.to_nat (Py.len a - (Py.rfind OsPath.sep a + 1)))).
    + cbn [andb]. rewrite <- Hlen_q, Hq. by rewrite slice_to_app, slice_from_app.
    + lia.
    + replace (Py.rfind OsPath.sep a + 1
               + Z.of_nat (Z.to_nat (Py.len a - (Py.rfind OsPath.sep a + 1))))
        with (Py.len a) by lia.
      change (a +:+ "_" +:+ h +:+ String OsPath.extsep rest)
        with (a +:+ String "_" (h +:+ String OsPath.extsep rest)).
      rewrite slice_one_app_head. discriminate.
  - (* only leading dots in the last component *)
    rewrite andb_false_r in Hsplit. injection Hsplit as <- <-.
    rewrite append_nil_r. unfold OsPath.splitext.
    rewrite (rfind_app OsPath.sep (a +:+ String OsPath.extsep rest)).
    rewrite (rfind_app OsPath.extsep (a +:+ String OsPath.extsep rest)).
    replace (Py.contains OsPath.sep ("_" +:+ h)) with false
      by (rewrite contains_app, Hh_sep; reflexivity).
    replace (Py.contains OsPath.extsep ("_" +:+ h)) with false
      by (rewrite contains_app, Hh_dot; reflexivity).
    rewrite Hlen.
    rewrite <- (skip_leading_dots_ext (a +:+ String OsPath.extsep rest)), Hskip.
    + by rewrite andb_false_r.
    + intros k Hk. symmetry. apply slice_one_app_within.
      pose proof (rfind_range OsPath.sep (a +:+ String OsPath.extsep rest)).
      unfold Py.len in *. rewrite append_length. cbn [String.length]. lia.
Qed.
